(** * ai-complexity-analyzer: a shallow embedding of the analysis pipeline

    The development follows the Python package [complexity_analyzer]:
    - [models.py]          : the pydantic models [FileComplexity] and
                             [ComplexityReport];
    - [token_manager.py]   : [TokenManager.truncate_to_limit];
    - [github_client.py]   : [GitHubAPIClient] (URL parsing, filtering,
                             fetching);
    - [analyzer.py]        : [RepositoryAnalyzer] (construction, [analyze]).

    Conventions.  A Python [str] is a [string] (one [ascii] per character), a
    Python [int] is a [Z], a Python [float] holding a score is an exact
    rational [Q] (scores are only compared, added, divided by a length and
    rounded to two decimals).  A raised exception is the [Raise] branch of
    [result]; it carries the class name and the message.  An insertion-ordered
    [dict] that is iterated is an association list; a [dict] that is only
    looked up is a [gmap]. *)

From Stdlib Require Import ZArith QArith Lia Lqa Bool Ascii String List Sorted Permutation.
From stdpp Require Import base tactics option list strings gmap.

Import ListNotations.
Local Open Scope string_scope.
Local Open Scope Z_scope.

(** ** Python runtime: exceptions, results *)

Module Py.

Record exn := Exn { exn_class : string; exn_msg : string }.

Inductive result (A : Type) : Type :=
| Ok (a : A)
| Raise (e : exn).
Arguments Ok {A} a.
Arguments Raise {A} e.

Definition bind {A B} (r : result A) (k : A -> result B) : result B :=
  match r with
  | Ok a => k a
  | Raise e => Raise e
  end.

Definition ValueError (msg : string) : exn := Exn "ValueError" msg.
Definition ValidationError (msg : string) : exn := Exn "ValidationError" msg.

Definition is_ok {A} (r : result A) : bool :=
  match r with Ok _ => true | Raise _ => false end.

(** [x or default] on an optional list argument: [None] and the empty list
    are both falsy. *)
Definition or_list {A} (x : option (list A)) (default : list A) : list A :=
  match x with
  | Some (a :: l) => a :: l
  | Some [] | None => default
  end.

(** [x or default] on an optional string: [None] and [""] are falsy. *)
Definition or_str (x : option string) (default : string) : string :=
  match x with
  | Some (String c s) => String c s
  | Some EmptyString | None => default
  end.

(** [x or default] on an optional int: [None] and [0] are falsy. *)
Definition or_int (x : option Z) (default : Z) : Z :=
  match x with
  | Some 0 | None => default
  | Some n => n
  end.

(** [l[:k]] for a Python int [k]: a negative [k] counts from the end. *)
Definition slice_to {A} (l : list A) (k : Z) : list A :=
  if k <? 0
  then firstn (Z.to_nat (Z.of_nat (length l) + k)) l
  else firstn (Z.to_nat k) l.

(** [min(a, b)] on floats: the first argument wins unless [b < a]. *)
Definition min (a b : Q) : Q := if Qlt_le_dec b a then b else a.

(** [max(l, key=key)]: the first element whose key is maximal; raises
    [ValueError] on an empty sequence. *)
Fixpoint max_from {A} (key : A -> Q) (best : A) (l : list A) : A :=
  match l with
  | [] => best
  | x :: l' =>
      if Qlt_le_dec (key best) (key x)
      then max_from key x l'
      else max_from key best l'
  end.

Definition max_by {A} (key : A -> Q) (l : list A) : result A :=
  match l with
  | [] => Raise (ValueError "max() arg is an empty sequence")
  | x :: l' => Ok (max_from key x l')
  end.

(** [sum(...)] over floats, starting from [0]. *)
Definition sum (l : list Q) : Q := fold_left Qplus l (0 # 1)%Q.

(** Rounding of a rational to the nearest integer, ties to even. *)
Definition round_half_even (x : Q) : Z :=
  let n := Qnum x in
  let d := Z.pos (Qden x) in
  let q := n / d in
  let r := n mod d in
  if 2 * r <? d then q
  else if d <? 2 * r then q + 1
  else if Z.even q then q else q + 1.

(** [round(x, 2)]. *)
Definition round2 (x : Q) : Q :=
  (round_half_even (x * (100 # 1)) # 100)%Q.

(** [c in chars], for a character [c]. *)
Fixpoint char_in (c : ascii) (chars : string) : bool :=
  match chars with
  | EmptyString => false
  | String d chars' => Ascii.eqb c d || char_in c chars'
  end.

(** [s.startswith(p)], returning what follows [p]. *)
Fixpoint strip_prefix (p s : string) : option string :=
  match p, s with
  | EmptyString, _ => Some s
  | String a p', String b s' => if Ascii.eqb a b then strip_prefix p' s' else None
  | String _ _, EmptyString => None
  end.

Definition is_Some_b {A} (o : option A) : bool :=
  match o with Some _ => true | None => false end.

(** [s.endswith(suffix)]. *)
Fixpoint endswith (s suffix : string) : bool :=
  if String.eqb s suffix then true
  else match s with
       | EmptyString => false
       | String _ s' => endswith s' suffix
       end.

(** [sub in s], for strings. *)
Fixpoint contains (sub s : string) : bool :=
  if is_Some_b (strip_prefix sub s) then true
  else match s with
       | EmptyString => false
       | String _ s' => contains sub s'
       end.

(** [s.rstrip(chars)]: removes the longest suffix made of characters of the
    set [chars]. *)
Fixpoint rstrip (chars s : string) : string :=
  match s with
  | EmptyString => EmptyString
  | String c s' =>
      match rstrip chars s' with
      | EmptyString => if char_in c chars then EmptyString else String c EmptyString
      | r => String c r
      end
  end.

(** Every character of [s] is in the class [cls]. *)
Fixpoint all_chars (cls : ascii -> bool) (s : string) : bool :=
  match s with
  | EmptyString => true
  | String c s' => cls c && all_chars cls s'
  end.

(** The last character of [s]. *)
Fixpoint last_char (s : string) : option ascii :=
  match s with
  | EmptyString => None
  | String c EmptyString => Some c
  | String _ s' => last_char s'
  end.

(** [s] is not empty and its last character is none of [chars]. *)
Definition ends_outside (chars s : string) : bool :=
  match last_char s with
  | Some c => negb (char_in c chars)
  | None => false
  end.

(** [s[:n]] for a string and [0 <= n]. *)
Definition str_take (n : nat) (s : string) : string := String.substring 0 n s.

End Py.

Import Py.

#[global] Instance result_ret : MRet result := fun A a => Ok a.
#[global] Instance result_bind : MBind result := fun A B k r => Py.bind r k.
#[global] Instance result_fmap : FMap result :=
  fun A B f r => Py.bind r (fun a => Ok (f a)).

(** ** models.py *)

Module models.

Record FileComplexity := {
  file_path : string;
  total_score : Q;
  cyclomatic_score : Q;
  architectural_score : Q;
  algorithmic_score : Q;
  line_count : Z;
  function_count : Z;
  class_count : Z;
  patterns_detected : list string;
  reasoning : string
}.

(** [metadata], as [analyze] fills it. *)
Record Metadata := {
  total_files : Z;
  analyzed_count : Z;
  excluded_patterns : list string
}.

Record ComplexityReport := {
  repository_url : string;
  analyzed_files : list FileComplexity;
  top_file : string;
  score : Q;
  metadata : Metadata;
  timestamp : string
}.

(** The value a validator finds in [values]. *)
Inductive pyval :=
| VStr (s : string)
| VFloat (q : Q)
| VInt (z : Z)
| VStrList (l : list string)
| VFiles (l : list FileComplexity)
| VMeta (m : Metadata).

(** State of pydantic's model validation: the fields validated so far, and
    the names of the fields that failed.  Fields are validated in the order
    of their declaration in the class body; a validator attached to a field
    receives, as [values], the fields that were declared before it and
    passed validation. *)
Record vstate := VState {
  values : gmap string pyval;
  errors : list string
}.

Definition vstart : vstate := VState ∅ [].

Definition vfield (name : string) (r : result pyval) (st : vstate) : vstate :=
  match r with
  | Ok v => VState (<[name := v]> (values st)) (errors st)
  | Raise _ => VState (values st) (errors st ++ [name])%list
  end.

Definition vfinish {A} (st : vstate) (a : A) : result A :=
  match errors st with
  | [] => Ok a
  | _ :: _ => Raise (ValidationError (String.concat ", " (errors st)))
  end.

(** [values.get(name, 0)] for a float field. *)
Definition get_float (vs : gmap string pyval) (name : string) : Q :=
  match vs !! name with
  | Some (VFloat q) => q
  | Some (VInt z) => inject_Z z
  | _ => 0%Q
  end.

(** [name in values]. *)
Definition has_key (vs : gmap string pyval) (name : string) : bool :=
  bool_decide (is_Some (vs !! name)).

(** Field constraints [ge], [le], [gt], [min_length]. *)
Definition ge_le (lo hi v : Q) : result Q :=
  if Qlt_le_dec v lo then Raise (ValueError "ensure this value is greater than or equal to the bound")
  else if Qlt_le_dec hi v then Raise (ValueError "ensure this value is less than or equal to the bound")
  else Ok v.

Definition int_ge (lo v : Z) : result Z :=
  if v <? lo then Raise (ValueError "ensure this value is greater than or equal to the bound")
  else Ok v.

Definition int_gt (lo v : Z) : result Z :=
  if v <=? lo then Raise (ValueError "ensure this value is greater than the bound")
  else Ok v.

Definition min_length (n : nat) (s : string) : result string :=
  if (String.length s <? n)%nat then Raise (ValueError "ensure this value has at least the required length")
  else Ok s.

(** [FileComplexity.validate_total_score], the validator attached to the
    field [total_score]. *)
Definition validate_total_score (v : Q) (values : gmap string pyval) : result Q :=
  if has_key values "cyclomatic_score" && has_key values "architectural_score" then
    let min_score := Py.min (get_float values "cyclomatic_score")
                            (get_float values "architectural_score") in
    if Qlt_le_dec v (min_score - (20 # 1)) then
      Raise (ValueError "Total score significantly below component scores")
    else Ok v
  else Ok v.

(** Validation of the fields of a candidate [FileComplexity], in the order
    of the class body: [file_path], [total_score], [cyclomatic_score],
    [architectural_score], [algorithmic_score], [line_count],
    [function_count], [class_count], [patterns_detected], [reasoning]. *)
Definition FileComplexity_fields (d : FileComplexity) : vstate :=
  let st := vstart in
  let st := vfield "file_path" (Ok (VStr (file_path d))) st in
  let st := vfield "total_score"
              (v ← ge_le (0 # 1) (100 # 1) (total_score d);
               v ← validate_total_score v (values st);
               Ok (VFloat v)) st in
  let st := vfield "cyclomatic_score"
              (VFloat <$> ge_le (0 # 1) (100 # 1) (cyclomatic_score d)) st in
  let st := vfield "architectural_score"
              (VFloat <$> ge_le (0 # 1) (100 # 1) (architectural_score d)) st in
  let st := vfield "algorithmic_score"
              (VFloat <$> ge_le (0 # 1) (100 # 1) (algorithmic_score d)) st in
  let st := vfield "line_count" (VInt <$> int_gt 0 (line_count d)) st in
  let st := vfield "function_count" (VInt <$> int_ge 0 (function_count d)) st in
  let st := vfield "class_count" (VInt <$> int_ge 0 (class_count d)) st in
  let st := vfield "patterns_detected" (Ok (VStrList (patterns_detected d))) st in
  let st := vfield "reasoning" (VStr <$> min_length 10 (reasoning d)) st in
  st.

(** Construction of a [FileComplexity] from keyword arguments [d]: the
    value is produced when no field failed. *)
Definition FileComplexity_init (d : FileComplexity) : result FileComplexity :=
  vfinish (FileComplexity_fields d) d.

(** [ComplexityReport.validate_top_file], the validator attached to the
    field [top_file]. *)
Definition validate_top_file (v : string) (values : gmap string pyval) : result string :=
  match values !! "analyzed_files" with
  | Some (VFiles files) =>
      let file_paths := map file_path files in
      if bool_decide (v ∈ file_paths) then Ok v
      else Raise (ValueError ("Top file " +:+ v +:+ " not found in analyzed files"))
  | _ => Ok v
  end.

(** Validation of the fields of a candidate [ComplexityReport], in the order
    of the class body: [repository_url], [analyzed_files], [top_file],
    [score], [metadata], [timestamp]. *)
Definition ComplexityReport_fields (d : ComplexityReport) : vstate :=
  let st := vstart in
  let st := vfield "repository_url" (Ok (VStr (repository_url d))) st in
  let st := vfield "analyzed_files" (Ok (VFiles (analyzed_files d))) st in
  let st := vfield "top_file"
              (VStr <$> validate_top_file (top_file d) (values st)) st in
  let st := vfield "score" (VFloat <$> ge_le (0 # 1) (100 # 1) (score d)) st in
  let st := vfield "metadata" (Ok (VMeta (metadata d))) st in
  let st := vfield "timestamp" (Ok (VStr (timestamp d))) st in
  st.

Definition ComplexityReport_init (d : ComplexityReport) : result ComplexityReport :=
  vfinish (ComplexityReport_fields d) d.

(** The field constraints of [FileComplexity], as a proposition. *)
Definition in_range (d : FileComplexity) : Prop :=
  ((0 <= total_score d)%Q /\ (total_score d <= 100)%Q) /\
  ((0 <= cyclomatic_score d)%Q /\ (cyclomatic_score d <= 100)%Q) /\
  ((0 <= architectural_score d)%Q /\ (architectural_score d <= 100)%Q) /\
  ((0 <= algorithmic_score d)%Q /\ (algorithmic_score d <= 100)%Q) /\
  0 < line_count d /\ 0 <= function_count d /\ 0 <= class_count d /\
  (10 <= String.length (reasoning d))%nat.

(** The invariant that [validate_total_score] is meant to enforce. *)
Definition coherent_total (d : FileComplexity) : Prop :=
  (Py.min (cyclomatic_score d) (architectural_score d) - (20 # 1) <= total_score d)%Q.

End models.

(** ** The part of Python's [re] that [parse_repo_url] uses *)

Module re.

(** Patterns: literal text, a repeated character class [[..]+] (greedy) or
    [[..]+?] (lazy), a capturing group, an optional non-capturing group
    [(?:r)?], concatenation and [$]. *)
Inductive regex : Type :=
| Lit (s : string)
| Plus (greedy : bool) (cls : ascii -> bool)
| Group (r : regex)
| Opt (r : regex)
| Cat (r1 r2 : regex)
| Eos.

(** The ways of taking a non-empty run of class characters off the front of
    [s], shortest first: pairs of the run taken and the text left. *)
Fixpoint runs (cls : ascii -> bool) (s : string) : list (string * string) :=
  match s with
  | EmptyString => []
  | String c s' =>
      if cls c
      then (String c EmptyString, s')
             :: map (fun tr : string * string => (String c (fst tr), snd tr))
                    (runs cls s')
      else []
  end.

(** What [r] consumed when it turned [s] into [rest]. *)
Definition consumed (s rest : string) : string :=
  Py.str_take (String.length s - String.length rest) s.

(** All the matches of [r] at the start of [s], in the order in which a
    backtracking matcher tries them: each is the list of captured groups and
    the text that remains.  The matcher's answer is the first of them. *)
Fixpoint rmatch (r : regex) (s : string) : list (list string * string) :=
  match r with
  | Lit l =>
      match Py.strip_prefix l s with
      | Some rest => [([], rest)]
      | None => []
      end
  | Plus greedy cls =>
      let ms := map (fun tr : string * string => ([], snd tr)) (runs cls s) in
      if greedy then rev ms else ms
  | Group r1 =>
      map (fun m : list string * string => (consumed s (snd m) :: fst m, snd m))
          (rmatch r1 s)
  | Opt r1 => (rmatch r1 s ++ [([], s)])%list
  | Cat r1 r2 =>
      flat_map (fun m1 : list string * string =>
                  map (fun m2 : list string * string => ((fst m1 ++ fst m2)%list, snd m2))
                      (rmatch r2 (snd m1)))
               (rmatch r1 s)
  | Eos =>
      (* without MULTILINE, [$] matches at the end of the string and just
         before a newline that ends the string *)
      if String.eqb s "" || String.eqb s (String "010"%char "")
      then [([], s)] else []
  end.

(** [re.search(r, s)]: the first match at the leftmost position that has
    one; the result is the list of groups [group(1), group(2), ...]. *)
Fixpoint search (r : regex) (s : string) : option (list string) :=
  match rmatch r s with
  | m :: _ => Some (fst m)
  | [] =>
      match s with
      | EmptyString => None
      | String _ s' => search r s'
      end
  end.

(** [match.group(n)] for [1 <= n]. *)
Definition group (groups : list string) (n : nat) : string :=
  nth (n - 1) groups "".

End re.

(** ** Python's [fnmatch.fnmatch] on a POSIX system *)

Module fnmatch.

(** What [fnmatch.translate] turns a pattern into. *)
Inductive gtok :=
| GStar                                   (* [*]      : [.*] under DOTALL *)
| GAny                                    (* [?]      : [.] under DOTALL *)
| GSet (negate : bool) (body : string)    (* [[seq]], [[!seq]] *)
| GLit (c : ascii).                       (* any other character, escaped *)

Definition is_star (t : gtok) : bool :=
  match t with GStar => true | _ => false end.

(** The text up to the first [']'], and what follows it. *)
Fixpoint split_bracket (s : string) : option (string * string) :=
  match s with
  | EmptyString => None
  | String c s' =>
      if Ascii.eqb c "]" then Some (EmptyString, s')
      else match split_bracket s' with
           | Some (body, rest) => Some (String c body, rest)
           | None => None
           end
  end.

(** After a ['['] : the index [j] of the closing bracket is sought past a
    leading ['!'] and past a [']'] that comes first; the result is
    [pat[i:j]] and [pat[j+1:]], or [None] when the bracket is never closed. *)
Definition find_close (s : string) : option (string * string) :=
  let '(pre1, s1) := match s with
                     | String "!" s' => ("!", s')
                     | _ => ("", s)
                     end in
  let '(pre2, s2) := match s1 with
                     | String "]" s' => ("]", s')
                     | _ => ("", s1)
                     end in
  match split_bracket s2 with
  | Some (body, rest) => Some (pre1 +:+ pre2 +:+ body, rest)
  | None => None
  end.

Definition class_of (stuff : string) : gtok :=
  match stuff with
  | String "!" body => GSet true body
  | _ => GSet false stuff
  end.

(** The [while i < n] loop of [translate]; [res] is the list built with
    [add].  Every iteration consumes at least one character, so a fuel equal
    to the length of the pattern is enough. *)
Fixpoint translate_loop (fuel : nat) (pat : string) (res : list gtok) : list gtok :=
  match fuel, pat with
  | O, _ | _, EmptyString => res
  | S fuel', String c rest =>
      if Ascii.eqb c "*" then
        (* consecutive [*] are compressed into one *)
        translate_loop fuel' rest
          (match last res with
           | Some GStar => res
           | _ => res ++ [GStar]
           end)
      else if Ascii.eqb c "?" then translate_loop fuel' rest (res ++ [GAny])
      else if Ascii.eqb c "[" then
        match find_close rest with
        | None => translate_loop fuel' rest (res ++ [GLit "["])
        | Some (stuff, rest') => translate_loop fuel' rest' (res ++ [class_of stuff])
        end
      else translate_loop fuel' rest (res ++ [GLit c])
  end.

Definition translate (pat : string) : list gtok :=
  translate_loop (String.length pat) pat [].

(** Membership in the body of a bracket expression, as the documentation of
    [fnmatch] reads [[seq]] and [[!seq]]: single characters and ranges
    [lo-hi]; a hyphen that is first, last, or follows a range is a plain
    character, and a range whose ends are out of order holds nothing. *)
Fixpoint set_mem (c : ascii) (body : string) : bool :=
  match body with
  | EmptyString => false
  | String lo (String "-" (String hi rest)) =>
      ((nat_of_ascii lo <=? nat_of_ascii c)%nat && (nat_of_ascii c <=? nat_of_ascii hi)%nat)
      || set_mem c rest
  | String d rest => Ascii.eqb c d || set_mem c rest
  end.

(** [re.match] of the translated pattern, which is closed by [\Z]: the whole
    name has to be matched. *)
Fixpoint gmatch (toks : list gtok) (s : string) : bool :=
  match toks with
  | [] => String.eqb s ""
  | GStar :: toks' =>
      (fix star (s : string) : bool :=
         gmatch toks' s ||
         match s with
         | EmptyString => false
         | String _ s' => star s'
         end) s
  | GAny :: toks' =>
      match s with
      | EmptyString => false
      | String _ s' => gmatch toks' s'
      end
  | GSet negate body :: toks' =>
      match s with
      | EmptyString => false
      | String c s' => xorb negate (set_mem c body) && gmatch toks' s'
      end
  | GLit d :: toks' =>
      match s with
      | EmptyString => false
      | String c s' => Ascii.eqb c d && gmatch toks' s'
      end
  end.

(** [os.path.normcase] is the identity on POSIX. *)
Definition normcase (s : string) : string := s.

Definition fnmatchcase (name pat : string) : bool :=
  gmatch (translate pat) name.

Definition fnmatch (name pat : string) : bool :=
  fnmatchcase (normcase name) (normcase pat).

(** A pattern without [*], [?] and [[]: every character stands for itself. *)
Fixpoint plain (pat : string) : bool :=
  match pat with
  | EmptyString => true
  | String c pat' => negb (Py.char_in c "*?[") && plain pat'
  end.

End fnmatch.

(** ** token_manager.py *)

Module token_manager.

(** A [tiktoken.Encoding]: tokens are integers. *)
Record Encoding := {
  encode : string -> list Z;
  decode : list Z -> string
}.

(** The [tiktoken] module: [encoding_for_model] raises [KeyError] on a model
    it does not know ([None] here). *)
Record Tiktoken := {
  encoding_for_model : string -> option Encoding;
  get_encoding : string -> Encoding
}.

Definition MODEL_LIMITS : gmap string Z :=
  list_to_map [
    ("gpt-4-turbo-preview", 128000);
    ("gpt-4", 8192);
    ("gpt-3.5-turbo", 16385);
    ("claude-3-opus-20240229", 200000);
    ("claude-3-sonnet-20240229", 200000)
  ].

Record TokenManager := {
  model : string;
  encoding : Encoding;
  total_input_tokens : Z;
  total_output_tokens : Z
}.

Definition _get_encoding (tiktoken : Tiktoken) (model : string) : Encoding :=
  if Py.contains "gpt" model then
    match encoding_for_model tiktoken model with
    | Some e => e
    | None => get_encoding tiktoken "cl100k_base"
    end
  else get_encoding tiktoken "cl100k_base".

Definition __init__ (tiktoken : Tiktoken) (model : string) : TokenManager :=
  {| model := model;
     encoding := _get_encoding tiktoken model;
     total_input_tokens := 0;
     total_output_tokens := 0 |}.

Definition count_tokens (self : TokenManager) (text : string) : Z :=
  Z.of_nat (length (encode (encoding self) text)).

(** [max_tokens or self.MODEL_LIMITS.get(self.model, 8000)]. *)
Definition resolve_max_tokens (self : TokenManager) (max_tokens : option Z) : Z :=
  Py.or_int max_tokens (default 8000 (MODEL_LIMITS !! model self)).

Definition truncate_to_limit (self : TokenManager) (text : string)
    (max_tokens : option Z) (buffer : Z) : string :=
  let max_tokens := resolve_max_tokens self max_tokens in
  let max_tokens := max_tokens - buffer in
  let tokens := encode (encoding self) text in
  if Z.of_nat (length tokens) <=? max_tokens then text
  else
    let truncated_tokens := Py.slice_to tokens max_tokens in
    decode (encoding self) truncated_tokens.

(** A byte-level encoding: one token per character, its code. *)
Definition byte_encoding : Encoding := {|
  encode := fun s => map (fun c => Z.of_nat (nat_of_ascii c)) (list_ascii_of_string s);
  decode := fun ts => string_of_list_ascii (map (fun t => ascii_of_nat (Z.to_nat t)) ts)
|}.

Definition byte_manager : TokenManager :=
  {| model := "gpt-4"; encoding := byte_encoding;
     total_input_tokens := 0; total_output_tokens := 0 |}.

End token_manager.

(** ** github_client.py *)

Module github_client.

(** An entry of the tree that the GitHub API lists. *)
Record TreeItem := { type : string; path : string }.

(** The two requests of the client, as the remote service answers them:
    [_get_repo_tree owner repo] (branch [main], then [master]) and
    [_get_file_content owner repo file_path] (decoded text).  A failed
    request raises. *)
Record GitHubAPIClient := {
  _get_repo_tree : string -> string -> result (list TreeItem);
  _get_file_content : string -> string -> string -> result string
}.

Definition not_slash (c : ascii) : bool := negb (Ascii.eqb c "/").

(** [github\.com/([^/]+)/([^/]+?)(?:\.git)?$] *)
Definition pattern_git : re.regex :=
  re.Cat (re.Lit "github.com/")
    (re.Cat (re.Group (re.Plus true not_slash))
       (re.Cat (re.Lit "/")
          (re.Cat (re.Group (re.Plus false not_slash))
             (re.Cat (re.Opt (re.Lit ".git")) re.Eos)))).

(** [github\.com/([^/]+)/([^/]+)] *)
Definition pattern_any : re.regex :=
  re.Cat (re.Lit "github.com/")
    (re.Cat (re.Group (re.Plus true not_slash))
       (re.Cat (re.Lit "/") (re.Group (re.Plus true not_slash)))).

Definition patterns : list re.regex := [pattern_git; pattern_any].

(** A path segment of a URL: not empty, without ['/']. *)
Definition segment (s : string) : bool :=
  negb (String.eqb s "") && Py.all_chars not_slash s.

(** The characters that [rstrip(".git")] removes, and the newline before
    which [$] matches. *)
Definition git_chars : string := String "010" ".git".

(** [url] holds [github.com/], a segment, ['/'] and one more character that
    is not ['/']: what the pattern [github\.com/([^/]+)/([^/]+)] looks for. *)
Definition has_github_path (url : string) : Prop :=
  exists before owner c rest,
    url = before +:+ "github.com/" +:+ owner +:+ "/" +:+ String c rest /\
    segment owner = true /\ c <> "/"%char.

(** The loop [for pattern in patterns] of [parse_repo_url]. *)
Fixpoint parse_with (patterns : list re.regex) (url : string) : result (string * string) :=
  match patterns with
  | [] => Raise (ValueError ("Invalid GitHub URL: " +:+ url))
  | pattern :: patterns' =>
      match re.search pattern url with
      | Some match_ => Ok (re.group match_ 1, Py.rstrip ".git" (re.group match_ 2))
      | None => parse_with patterns' url
      end
  end.

Definition parse_repo_url (url : string) : result (string * string) :=
  parse_with patterns url.

Definition code_extensions : list string :=
  [".py"; ".js"; ".ts"; ".java"; ".cpp"; ".c"; ".h"; ".hpp";
   ".go"; ".rs"; ".rb"; ".php"; ".cs"; ".swift"; ".kt"; ".scala"].

Fixpoint _should_exclude (path : string) (patterns : list string) : bool :=
  match patterns with
  | [] => false
  | pattern :: patterns' =>
      if fnmatch.fnmatch path pattern then true
      else _should_exclude path patterns'
  end.

Fixpoint _filter_code_files (tree : list TreeItem) (exclude_patterns : list string)
  : list string :=
  match tree with
  | [] => []
  | item :: tree' =>
      if negb (String.eqb (type item) "blob") then
        _filter_code_files tree' exclude_patterns
      else
        let path := path item in
        if negb (existsb (fun ext => Py.endswith path ext) code_extensions) then
          _filter_code_files tree' exclude_patterns
        else if _should_exclude path exclude_patterns then
          _filter_code_files tree' exclude_patterns
        else path :: _filter_code_files tree' exclude_patterns
  end.

(** An entry survives extension and exclusion filtering: it is a blob, its
    path ends with a code extension, and no exclude pattern matches it. *)
Definition survives (exclude_patterns : list string) (item : TreeItem) : bool :=
  String.eqb (type item) "blob"
  && existsb (fun ext => Py.endswith (path item) ext) code_extensions
  && negb (existsb (fun pattern => fnmatch.fnmatch (path item) pattern) exclude_patterns).

(** The paths of the surviving entries, in listing order. *)
Definition survivors (tree : list TreeItem) (exclude_patterns : list string) : list string :=
  map path (List.filter (survives exclude_patterns) tree).

(** [d[k] = v] on an insertion-ordered dict. *)
Fixpoint dict_set (k v : string) (d : list (string * string)) : list (string * string) :=
  match d with
  | [] => [(k, v)]
  | (k', v') :: d' =>
      if String.eqb k' k then (k, v) :: d' else (k', v') :: dict_set k v d'
  end.

(** What a run of [fetch_repository_files] did: the paths whose content was
    requested, in the order of the requests, and the dict it returns. *)
Record Fetched := {
  requested : list string;
  file_contents : list (string * string)
}.

(** One iteration of the loop [for file_path in code_files]. *)
Definition fetch_one (self : GitHubAPIClient) (owner repo : string)
    (st : Fetched) (file_path : string) : Fetched :=
  match _get_file_content self owner repo file_path with
  | Ok content =>
      {| requested := requested st ++ [file_path];
         file_contents := dict_set file_path content (file_contents st) |}
  | Raise _ =>
      {| requested := requested st ++ [file_path];
         file_contents := file_contents st |}
  end.

Definition fetch_repository_files (self : GitHubAPIClient) (repository_url : string)
    (max_files : Z) (exclude_patterns : option (list string)) : result Fetched :=
  '(owner, repo) ← parse_repo_url repository_url;
  let exclude_patterns := Py.or_list exclude_patterns [] in
  tree ← _get_repo_tree self owner repo;
  let code_files := _filter_code_files tree exclude_patterns in
  let code_files := Py.slice_to code_files max_files in
  Ok (fold_left (fetch_one self owner repo) code_files
        {| requested := []; file_contents := [] |}).

End github_client.

(** ** analyzer.py *)

Module analyzer.
Import models.

Inductive LLMProvider :=
| OpenAIProvider (model : string)
| AnthropicProvider (model : string).

(** What lies outside the package: the environment variables, the [tiktoken]
    module, the model backends (the answer of [chain.invoke] before the
    output parser validates it), and the clock. *)
Record World := {
  getenv : string -> option string;
  tiktoken : token_manager.Tiktoken;
  chain_invoke : LLMProvider -> string -> string -> result FileComplexity;
  utcnow : string
}.

(** [os.getenv(name, default)]. *)
Definition getenv_or (w : World) (name default_value : string) : string :=
  default default_value (getenv w name).

Definition OpenAIProvider_init (w : World) (model : option string) : LLMProvider :=
  OpenAIProvider (Py.or_str model (getenv_or w "OPENAI_MODEL" "gpt-5")).

(** [LLMProvider.analyze_file]: the file content is cut to 15000 (OpenAI) or
    20000 (Anthropic) characters, and the answer goes through the pydantic
    parser of [FileComplexity]. *)
Definition analyze_file (w : World) (self : LLMProvider)
    (file_content file_path : string) : result FileComplexity :=
  let cut := match self with
             | OpenAIProvider _ => Z.to_nat 15000
             | AnthropicProvider _ => Z.to_nat 20000
             end in
  answer ← chain_invoke w self (Py.str_take cut file_content) file_path;
  FileComplexity_init answer.

Record RepositoryAnalyzer := {
  github_client : github_client.GitHubAPIClient;
  token_manager : token_manager.TokenManager;
  max_files : Z;
  exclude_patterns : list string;
  llm_provider : LLMProvider
}.

Definition _create_llm_provider (w : World) (provider : string) (model : option string)
  : result LLMProvider :=
  if String.eqb provider "openai" then
    Ok (OpenAIProvider_init w
          (Some (Py.or_str model (getenv_or w "OPENAI_MODEL" "gpt-5"))))
  else if String.eqb provider "anthropic" then
    Ok (AnthropicProvider (Py.or_str model "claude-3-opus-20240229"))
  else Raise (ValueError ("Unknown provider: " +:+ provider)).

Definition default_exclude_patterns : list string := ["tests/*"; "*.md"; "*.txt"].

(** [RepositoryAnalyzer.__init__]; an omitted [exclude_patterns] is [None]. *)
Definition __init__ (w : World) (client : github_client.GitHubAPIClient)
    (llm_provider : string) (model : option string) (max_files : Z)
    (exclude_patterns : option (list string)) : result RepositoryAnalyzer :=
  let exclude_patterns := Py.or_list exclude_patterns default_exclude_patterns in
  provider ← _create_llm_provider w llm_provider model;
  Ok {| github_client := client;
        token_manager := token_manager.__init__ (tiktoken w) "gpt-4-turbo-preview";
        max_files := max_files;
        exclude_patterns := exclude_patterns;
        llm_provider := provider |}.

(** State of the loop [for file_path, file_content in files.items()]: the
    paths handed to the provider so far, and [analyzed_files]. *)
Record Analyzing := {
  attempted : list string;
  analyzed : list FileComplexity
}.

Definition analyze_one (w : World) (self : RepositoryAnalyzer)
    (st : Analyzing) (file : string * string) : Analyzing :=
  let '(file_path, file_content) := file in
  match analyze_file w (llm_provider self) file_content file_path with
  | Ok complexity =>
      {| attempted := attempted st ++ [file_path];
         analyzed := analyzed st ++ [complexity] |}
  | Raise _ =>
      {| attempted := attempted st ++ [file_path];
         analyzed := analyzed st |}
  end.

Definition analyze_loop (w : World) (self : RepositoryAnalyzer)
    (files : list (string * string)) : Analyzing :=
  fold_left (analyze_one w self) files {| attempted := []; analyzed := [] |}.

Definition len {A} (l : list A) : Z := Z.of_nat (length l).

(** [sum(f.total_score for f in analyzed_files) / len(analyzed_files)]. *)
Definition average (analyzed_files : list FileComplexity) : result Q :=
  if len analyzed_files =? 0 then
    Raise (Exn "ZeroDivisionError" "division by zero")
  else Ok (Py.sum (map total_score analyzed_files) / inject_Z (len analyzed_files))%Q.

(** The arithmetic mean of the total scores of a list of files. *)
Definition mean_score (l : list FileComplexity) : Q :=
  (Py.sum (map total_score l) / inject_Z (Z.of_nat (length l)))%Q.

(** The part of [analyze] that follows the loop. *)
Definition aggregate (w : World) (self : RepositoryAnalyzer) (repository_url : string)
    (files : list (string * string)) (analyzed_files : list FileComplexity)
  : result ComplexityReport :=
  top ← Py.max_by total_score analyzed_files;
  avg_score ← average analyzed_files;
  ComplexityReport_init
    {| repository_url := repository_url;
       analyzed_files := analyzed_files;
       top_file := file_path top;
       score := Py.round2 avg_score;
       metadata := {| total_files := len files;
                      analyzed_count := len analyzed_files;
                      excluded_patterns := exclude_patterns self |};
       timestamp := utcnow w +:+ "Z" |}.

(** [RepositoryAnalyzer.analyze]: the paths handed to the provider, and the
    report or the exception. *)
Definition analyze (w : World) (self : RepositoryAnalyzer) (repository_url : string)
  : list string * result ComplexityReport :=
  match github_client.fetch_repository_files (github_client self) repository_url
          (max_files self) (Some (exclude_patterns self)) with
  | Raise e => ([], Raise e)
  | Ok fetched =>
      let files := github_client.file_contents fetched in
      let st := analyze_loop w self files in
      (attempted st, aggregate w self repository_url files (analyzed st))
  end.

End analyzer.

(** ** Concrete inputs used by the examples below *)

Module fixtures.
Import models token_manager github_client analyzer.

(** A candidate whose total is 100 points below both component scores. *)
Definition incoherent : FileComplexity := {|
  file_path := "src/a.py";
  total_score := 0 # 1;
  cyclomatic_score := 100 # 1;
  architectural_score := 100 # 1;
  algorithmic_score := 100 # 1;
  line_count := 10;
  function_count := 1;
  class_count := 0;
  patterns_detected := [];
  reasoning := "0123456789"
|}.

(** An answer of the backend with a given path and total score. *)
Definition scored (path : string) (total : Q) : FileComplexity := {|
  file_path := path;
  total_score := total;
  cyclomatic_score := total;
  architectural_score := total;
  algorithmic_score := total;
  line_count := 1;
  function_count := 0;
  class_count := 0;
  patterns_detected := [];
  reasoning := "a short reasoning"
|}.

Definition listing (paths : list string) : list TreeItem :=
  map (fun p => {| type := "blob"; path := p |}) paths.

(** A service that lists the given paths and serves every file. *)
Definition client_of (paths : list string) : GitHubAPIClient := {|
  _get_repo_tree := fun _ _ => Ok (listing paths);
  _get_file_content := fun _ _ file_path => Ok ("# " +:+ file_path)
|}.

Definition no_env : string -> option string := fun _ => None.

(** A [tiktoken] that knows the byte-level encoding only. *)
Definition byte_tiktoken : Tiktoken := {|
  encoding_for_model := fun _ => Some byte_encoding;
  get_encoding := fun _ => byte_encoding
|}.

(** A backend that fails on every file. *)
Definition failing_world : World := {|
  getenv := no_env;
  tiktoken := byte_tiktoken;
  chain_invoke := fun _ _ _ => Raise (Exn "OutputParserException" "bad answer");
  utcnow := "2025-12-18T00:00:00"
|}.


Definition analyzer_of (paths : list string) (max_files : Z) : RepositoryAnalyzer := {|
  github_client := client_of paths;
  token_manager := token_manager.__init__ byte_tiktoken "gpt-4-turbo-preview";
  max_files := max_files;
  exclude_patterns := default_exclude_patterns;
  llm_provider := OpenAIProvider "gpt-5"
|}.

Definition repo_url : string := "https://github.com/owner/repo".

End fixtures.


(** ** Python's [sorted] with [reverse=True] *)

Module builtins.

(** Insertion of [x] in front of the first element that is not greater than
    it; [lt a b] says that the key of [a] is below the key of [b]. *)
Fixpoint insort {A} (lt : A -> A -> bool) (x : A) (l : list A) : list A :=
  match l with
  | [] => [x]
  | y :: l' => if lt x y then y :: insort lt x l' else x :: y :: l'
  end.

(** [sorted(l, key=..., reverse=True)]: descending keys, and elements with
    equal keys in their original order (the sort is stable, also when
    reversed). *)
Definition sorted_reverse {A} (lt : A -> A -> bool) (l : list A) : list A :=
  fold_right (insort lt) [] l.

(** [d.get(k, default)] and [d[k] = v] on an insertion-ordered dict. *)
Fixpoint dict_get {V} (d : list (string * V)) (k : string) (default : V) : V :=
  match d with
  | [] => default
  | (k', v) :: d' => if String.eqb k' k then v else dict_get d' k default
  end.

Fixpoint dict_put {V} (k : string) (v : V) (d : list (string * V)) : list (string * V) :=
  match d with
  | [] => [(k, v)]
  | (k', v') :: d' =>
      if String.eqb k' k then (k, v) :: d' else (k', v') :: dict_put k v d'
  end.

End builtins.

(** ** models.py: the derived views of [ComplexityReport] *)

Module report_views.
Import models.

Definition Qltb (a b : Q) : bool := if Qlt_le_dec a b then true else false.

Definition get_files_by_complexity (self : ComplexityReport) (threshold : Q)
  : list FileComplexity :=
  builtins.sorted_reverse
    (fun x y => Qltb (total_score x) (total_score y))
    (List.filter (fun f => Qle_bool threshold (total_score f)) (analyzed_files self)).

(** [pattern_counts[pattern] = pattern_counts.get(pattern, 0) + 1]. *)
Definition count_pattern (pattern_counts : list (string * Z)) (pattern : string)
  : list (string * Z) :=
  builtins.dict_put pattern (builtins.dict_get pattern_counts pattern 0 + 1) pattern_counts.

(** The two nested loops of [get_pattern_distribution]. *)
Definition pattern_counts_of (files : list FileComplexity) : list (string * Z) :=
  fold_left (fun pattern_counts file =>
               fold_left count_pattern (patterns_detected file) pattern_counts)
            files [].

Definition get_pattern_distribution (self : ComplexityReport) : list (string * Z) :=
  builtins.sorted_reverse (fun x y : string * Z => snd x <? snd y)
    (pattern_counts_of (analyzed_files self)).

(** Every pattern name detected in the files, with repetitions. *)
Definition all_patterns (files : list FileComplexity) : list string :=
  concat (map patterns_detected files).

(** The number of times [p] occurs in [l]. *)
Definition occurrences (p : string) (l : list string) : Z :=
  Z.of_nat (length (List.filter (String.eqb p) l)).

(** What the dict of counts holds after the patterns [l] have been seen. *)
Definition counts_of (d : list (string * Z)) (l : list string) : Prop :=
  List.NoDup (map fst d) /\
  (forall p, In p (map fst d) <-> In p l) /\
  (forall p, builtins.dict_get d p 0 = occurrences p l).

End report_views.

(** ** token_manager.py: cost estimation and usage tracking *)

Module token_costs.
Import token_manager.

(** Cost per 1K tokens (USD): the pairs are the entries ["input"] and
    ["output"]. *)
Definition MODEL_COSTS : gmap string (Q * Q) :=
  list_to_map [
    ("gpt-4-turbo-preview", (1 # 100, 3 # 100));
    ("gpt-4", (3 # 100, 6 # 100));
    ("gpt-3.5-turbo", (5 # 10000, 15 # 10000));
    ("claude-3-opus-20240229", (15 # 1000, 75 # 1000));
    ("claude-3-sonnet-20240229", (3 # 1000, 15 # 1000))
  ]%Q.

Definition estimate_cost (self : TokenManager) (input_tokens output_tokens : Z) : Q :=
  match MODEL_COSTS !! model self with
  | None => 0
  | Some (cost_input, cost_output) =>
      let input_cost := (inject_Z input_tokens / 1000) * cost_input in
      let output_cost := (inject_Z output_tokens / 1000) * cost_output in
      input_cost + output_cost
  end%Q.






End token_costs.

(** ** github_client.py: the requests behind the listing and the contents *)

Module github_session.
Import github_client.

(** The JSON object of an answer: its keys ["tree"] and ["content"], when
    present. *)
Record JsonObject := {
  tree : option (list TreeItem);
  content : option string
}.

(** An HTTP answer; [json] raises when the body is not JSON. *)
Record Response := {
  status_code : Z;
  json : result JsonObject
}.

(** The [requests.Session]: [get url] raises on a transport failure.
    [b64decode_utf8] is [base64.b64decode(..).decode("utf-8")]. *)
Record Session := {
  get : string -> result Response;
  b64decode_utf8 : string -> result string
}.

Definition BASE_URL : string := "https://api.github.com".

Definition is_http_error (status : Z) : bool := (400 <=? status) && (status <? 600).

(** [response.raise_for_status()]. *)
Definition raise_for_status (response : Response) : result unit :=
  if is_http_error (status_code response)
  then Raise (Exn "HTTPError" "client or server error")
  else Ok tt.

Definition tree_url (owner repo branch : string) : string :=
  BASE_URL +:+ "/repos/" +:+ owner +:+ "/" +:+ repo +:+ "/git/trees/" +:+ branch
  +:+ "?recursive=1".

Definition contents_url (owner repo file_path : string) : string :=
  BASE_URL +:+ "/repos/" +:+ owner +:+ "/" +:+ repo +:+ "/contents/" +:+ file_path.

(** The end of [_get_repo_tree]: [raise_for_status], [json()],
    [data.get("tree", [])]. *)
Definition read_tree (response : Response) : result (list TreeItem) :=
  _ ← raise_for_status response;
  data ← json response;
  Ok (default [] (tree data)).

(** [_get_repo_tree]: the URLs requested, in order, and the outcome. *)
Definition _get_repo_tree (self : Session) (owner repo : string)
  : list string * result (list TreeItem) :=
  let url := tree_url owner repo "main" in
  match get self url with
  | Raise e => ([url], Raise e)
  | Ok response =>
      if status_code response =? 404 then
        let url' := tree_url owner repo "master" in
        match get self url' with
        | Raise e => ([url; url'], Raise e)
        | Ok response' => ([url; url'], read_tree response')
        end
      else ([url], read_tree response)
  end.

Definition _get_file_content (self : Session) (owner repo file_path : string)
  : result string :=
  let url := contents_url owner repo file_path in
  response ← get self url;
  _ ← raise_for_status response;
  data ← json response;
  match content data with
  | None => Raise (Exn "KeyError" "content")
  | Some encoded => b64decode_utf8 self encoded
  end.

(** The client whose two requests go through the session. *)
Definition client (self : Session) : GitHubAPIClient := {|
  github_client._get_repo_tree := fun owner repo => snd (_get_repo_tree self owner repo);
  github_client._get_file_content := _get_file_content self
|}.

End github_session.

(** ** Vocabulary for the statements about fetching and analyzing *)

Module pipeline_views.
Import models github_client analyzer.

(** The dict holds, once each, the requested paths whose content was served,
    in the order of the requests when no path was requested twice. *)
Definition holds_served (self : GitHubAPIClient) (owner repo : string) (st : Fetched) : Prop :=
  List.NoDup (map fst (file_contents st)) /\
  (forall p c, In (p, c) (file_contents st)
               <-> In p (requested st) /\ _get_file_content self owner repo p = Ok c) /\
  (length (file_contents st) <= length (requested st))%nat /\
  (List.NoDup (requested st) ->
   file_contents st
   = flat_map (fun p => match _get_file_content self owner repo p with
                        | Ok c => [(p, c)]
                        | Raise _ => []
                        end) (requested st)).

(** The number of characters of a file that a provider hands to its
    backend. *)
Definition cut_of (p : LLMProvider) : Z :=
  match p with
  | OpenAIProvider _ => 15000
  | AnthropicProvider _ => 20000
  end.

(** The files that the provider analyzed with success, in order. *)
Definition successes (w : World) (self : RepositoryAnalyzer) (files : list (string * string))
  : list FileComplexity :=
  flat_map (fun file : string * string =>
              match analyze_file w (llm_provider self) (snd file) (fst file) with
              | Ok complexity => [complexity]
              | Raise _ => []
              end) files.

End pipeline_views.

(** ** Concrete inputs for the examples of the second part *)

Module fixtures2.
Import models token_manager github_client github_session.

(** A report over three files with total scores 40, 90 and 90. *)
Definition sample_report : ComplexityReport := {|
  repository_url := fixtures.repo_url;
  analyzed_files :=
    [ {| file_path := "a.py"; total_score := 40 # 1; cyclomatic_score := 40 # 1;
         architectural_score := 40 # 1; algorithmic_score := 40 # 1; line_count := 1;
         function_count := 0; class_count := 0;
         patterns_detected := ["Factory"; "Observer"]; reasoning := "a short reasoning" |};
      {| file_path := "b.py"; total_score := 90 # 1; cyclomatic_score := 90 # 1;
         architectural_score := 90 # 1; algorithmic_score := 90 # 1; line_count := 1;
         function_count := 0; class_count := 0;
         patterns_detected := ["Observer"]; reasoning := "a short reasoning" |};
      {| file_path := "c.py"; total_score := 90 # 1; cyclomatic_score := 90 # 1;
         architectural_score := 90 # 1; algorithmic_score := 90 # 1; line_count := 1;
         function_count := 0; class_count := 0;
         patterns_detected := ["Observer"; "Strategy"; "Observer"];
         reasoning := "a short reasoning" |} ];
  top_file := "b.py";
  score := 7333 # 100;
  metadata := {| total_files := 3; analyzed_count := 3; excluded_patterns := [] |};
  timestamp := "2025-12-18T00:00:00Z"
|}.

Definition ok_json (tree : option (list TreeItem)) (content : option string) : result JsonObject :=
  Ok {| tree := tree; content := content |}.

(** A service without a [main] branch: its [master] branch lists [a.py] and
    [b.py]; the content of [a.py] is served, [b.py] answers 403. *)
Definition master_only : Session := {|
  get := fun url =>
    if String.eqb url (tree_url "owner" "repo" "main")
    then Ok {| status_code := 404; json := ok_json None None |}
    else if String.eqb url (tree_url "owner" "repo" "master")
    then Ok {| status_code := 200;
               json := ok_json (Some (fixtures.listing ["a.py"; "b.py"])) None |}
    else if String.eqb url (contents_url "owner" "repo" "a.py")
    then Ok {| status_code := 200; json := ok_json None (Some "cHJpbnQoMSk=") |}
    else Ok {| status_code := 403; json := ok_json None None |};
  b64decode_utf8 := fun encoded =>
    if String.eqb encoded "cHJpbnQoMSk=" then Ok "print(1)"
    else Raise (Exn "Error" "Incorrect padding")
|}.

(** A backend that scores [a.py] 30, fails on [b.py] and scores any other
    file 70. *)
Definition mixed_world : analyzer.World := {|
  analyzer.getenv := fixtures.no_env;
  analyzer.tiktoken := fixtures.byte_tiktoken;
  analyzer.chain_invoke := fun _ _ file_path =>
    if String.eqb file_path "a.py" then Ok (fixtures.scored file_path (30 # 1))
    else if String.eqb file_path "b.py" then Raise (Exn "OutputParserException" "bad answer")
    else Ok (fixtures.scored file_path (70 # 1));
  analyzer.utcnow := "2025-12-18T00:00:00"
|}.

End fixtures2.

(** * Properties *)

#[local] Arguments String.app !_ _ / : simpl nomatch.

(** ** Strings *)

Section Strings.

Lemma str_app_assoc (a b c : string) : (a +:+ b) +:+ c = a +:+ (b +:+ c).
Proof. induction a as [|x a IH]; cbn; [done | by rewrite IH]. Qed.

Lemma str_app_nil_r (a : string) : a +:+ "" = a.
Proof. induction a as [|x a IH]; cbn; [done | by rewrite IH]. Qed.

Lemma str_length_app (a b : string) :
  String.length (a +:+ b) = (String.length a + String.length b)%nat.
Proof. induction a as [|x a IH]; cbn; [done | by rewrite IH]. Qed.

Lemma str_app_cons (c : ascii) (a b : string) : String c a +:+ b = String c (a +:+ b).
Proof. reflexivity. Qed.

End Strings.

(** ** models.py: validation of [FileComplexity] *)

Section Validation.
Import models.

Lemma errors_vfield name r st :
  errors (vfield name r st) = (errors st ++ (if is_ok r then [] else [name]))%list.
Proof. destruct r; simpl; [by rewrite app_nil_r | done]. Qed.

Lemma values_vfield_ok name v st :
  values (vfield name (Ok v) st) = <[name := v]> (values st).
Proof. reflexivity. Qed.

Lemma is_ok_fmap {A B} (f : A -> B) (r : result A) : is_ok (f <$> r) = is_ok r.
Proof. by destruct r. Qed.

Lemma is_ok_ge_le lo hi v :
  is_ok (ge_le lo hi v) = true <-> (lo <= v)%Q /\ (v <= hi)%Q.
Proof.
  unfold ge_le. destruct (Qlt_le_dec v lo) as [H1|H1]; simpl.
  - split; [done | intros [H _]; exfalso; eapply Qlt_not_le; eauto].
  - destruct (Qlt_le_dec hi v) as [H2|H2]; simpl.
    + split; [done | intros [_ H]; exfalso; eapply Qlt_not_le; eauto].
    + tauto.
Qed.

Lemma is_ok_int_ge lo v : is_ok (int_ge lo v) = true <-> lo <= v.
Proof. unfold int_ge. destruct (Z.ltb_spec v lo); simpl; split; try done; lia. Qed.

Lemma is_ok_int_gt lo v : is_ok (int_gt lo v) = true <-> lo < v.
Proof. unfold int_gt. destruct (Z.leb_spec v lo); simpl; split; try done; lia. Qed.

Lemma is_ok_min_length n s :
  is_ok (min_length n s) = true <-> (n <= String.length s)%nat.
Proof.
  unfold min_length. destruct (Nat.ltb_spec (String.length s) n); simpl; split; try done; lia.
Qed.

(** When [total_score] is validated, [values] holds [file_path] only: the
    component scores are declared after it. *)
Lemma validate_total_score_before_components v path :
  validate_total_score v (<["file_path" := VStr path]> ∅) = Ok v.
Proof.
  unfold validate_total_score, has_key.
  rewrite lookup_insert_ne by done. rewrite lookup_empty.
  rewrite bool_decide_eq_false_2; [done | by intros [? ?]].
Qed.

Lemma app_if_nil {A} (l : list A) (b : bool) (x : A) :
  (l ++ (if b then [] else [x]))%list = [] <-> l = [] /\ b = true.
Proof. destruct b; [rewrite app_nil_r | ]; split; try tauto.
  - intros H. apply app_eq_nil in H. destruct H; discriminate.
  - intros [_ ?]; discriminate. Qed.

Lemma FileComplexity_errors d :
  errors (FileComplexity_fields d) = [] <-> in_range d.
Proof.
  unfold FileComplexity_fields, in_range.
  repeat rewrite errors_vfield. rewrite values_vfield_ok. simpl values.
  repeat rewrite app_if_nil. repeat rewrite is_ok_fmap.
  rewrite <- !is_ok_ge_le, <- is_ok_int_gt, <- !is_ok_int_ge, <- is_ok_min_length.
  assert (Ht : is_ok (ge_le (0 # 1) (100 # 1) (total_score d)
                      ≫= (λ v, validate_total_score v (<["file_path" := VStr (file_path d)]> ∅)
                                ≫= λ v0, Ok (VFloat v0)))
               = is_ok (ge_le 0 100 (total_score d))).
  { destruct (ge_le _ _ _) as [v|e]; simpl; [|done].
    unfold mbind, result_bind; simpl. rewrite validate_total_score_before_components. done. }
  rewrite Ht. simpl. tauto.
Qed.

Lemma FileComplexity_init_ok d d' :
  FileComplexity_init d = Ok d' <-> d' = d /\ in_range d.
Proof.
  unfold FileComplexity_init, vfinish. rewrite <- FileComplexity_errors.
  destruct (errors (FileComplexity_fields d)); split.
  - intros [= <-]. done.
  - intros [-> _]. done.
  - discriminate.
  - intros [_ ?]. discriminate.
Qed.

(** C1 (the code departs from the claim).  The candidate [fixtures.incoherent]
    has a total score of 0 while its cyclomatic and architectural scores are
    both 100: the total lies 100 points below their minimum, yet the
    constructor returns the value.  [validate_total_score] runs while [values]
    holds [file_path] only, so its comparison is never reached. *)
Theorem FileComplexity_accepts_incoherent_total :
  FileComplexity_init fixtures.incoherent = Ok fixtures.incoherent /\
  ~ coherent_total fixtures.incoherent.
Proof.
  split.
  - apply FileComplexity_init_ok. split; [done|].
    unfold in_range; simpl. repeat split; try done; try lia.
  - unfold coherent_total. vm_compute. intros H. apply H. reflexivity.
Qed.

End Validation.

(** ** token_manager.py: [truncate_to_limit] *)

Section Truncation.
Import token_manager.

Lemma slice_to_nonneg {A} (l : list A) (k : Z) :
  0 <= k -> Py.slice_to l k = firstn (Z.to_nat k) l.
Proof. intros Hk. unfold Py.slice_to. destruct (Z.ltb_spec k 0); [lia | done]. Qed.

Lemma slice_to_negative {A} (l : list A) (k : Z) :
  k < 0 -> Py.slice_to l k = firstn (length l - Z.to_nat (- k)) l.
Proof.
  intros Hk. unfold Py.slice_to. destruct (Z.ltb_spec k 0); [|lia].
  f_equal. lia.
Qed.

Lemma slice_to_length_nonneg {A} (l : list A) (k : Z) :
  0 <= k -> Z.of_nat (length (Py.slice_to l k)) <= k.
Proof.
  intros Hk. rewrite slice_to_nonneg by done. rewrite length_take. lia.
Qed.

(** C10 (amended).  When the resolved [max_tokens] is below [buffer], the
    result is the decoding of the tokens of the text without the last
    [buffer - max_tokens] of them: [len - (buffer - max_tokens)] tokens are
    kept, which is none when the text has no more tokens than that.  Nothing
    makes the result non-empty, and the number of tokens kept is not bounded
    by [max_tokens]. *)
Theorem truncate_to_limit_negative_limit
    (self : TokenManager) (text : string) (max_tokens : option Z) (buffer : Z) :
  resolve_max_tokens self max_tokens < buffer ->
  exists kept : list Z,
    kept = firstn (length (encode (encoding self) text)
                   - Z.to_nat (buffer - resolve_max_tokens self max_tokens))
                  (encode (encoding self) text) /\
    truncate_to_limit self text max_tokens buffer = decode (encoding self) kept /\
    length kept = (length (encode (encoding self) text)
                   - Z.to_nat (buffer - resolve_max_tokens self max_tokens))%nat.
Proof.
  intros Hneg. eexists. split; [reflexivity|]. split.
  - unfold truncate_to_limit.
    destruct (Z.leb_spec (Z.of_nat (length (encode (encoding self) text)))
                (resolve_max_tokens self max_tokens - buffer)) as [H|H]; [lia|].
    rewrite slice_to_negative by lia. do 2 f_equal. lia.
  - rewrite length_take. lia.
Qed.

Lemma truncate_to_limit_negative_limit_witness :
  resolve_max_tokens byte_manager (Some 1) < 2 /\
  exists kept : list Z,
    truncate_to_limit byte_manager "abcdef" (Some 1) 2 = decode byte_encoding kept /\
    length kept = 5%nat /\
    count_tokens byte_manager (truncate_to_limit byte_manager "abcdef" (Some 1) 2) = 5.
Proof.
  split; [reflexivity|].
  destruct (truncate_to_limit_negative_limit byte_manager "abcdef" (Some 1) 2)
    as (kept & Hk & Ht & Hl); [reflexivity|].
  exists kept. split; [exact Ht|]. split; [exact Hl|]. reflexivity.
Defined.

(** C10 as stated fails: a text of one token, truncated with [max_tokens = 1]
    and [buffer = 3], comes back empty. *)
Lemma truncate_to_limit_negative_limit_can_be_empty :
  resolve_max_tokens byte_manager (Some 1) < 3 /\
  count_tokens byte_manager "a" > resolve_max_tokens byte_manager (Some 1) - 3 /\
  truncate_to_limit byte_manager "a" (Some 1) 3 = "".
Proof. repeat split. Qed.




End Truncation.

(** ** github_client.py: filtering and fetching *)

Section Filtering.
Import github_client.

Lemma endswith_eq (s suffix : string) :
  Py.endswith s suffix
  = if String.eqb s suffix then true
    else match s with
         | EmptyString => false
         | String _ s' => Py.endswith s' suffix
         end.
Proof. by destruct s. Qed.

Lemma endswith_spec (s suffix : string) :
  Py.endswith s suffix = true <-> exists stem, s = stem +:+ suffix.
Proof.
  split.
  - induction s as [|c s IH]; rewrite endswith_eq.
    + destruct (String.eqb_spec "" suffix) as [<-|]; [intros _; by exists ""|done].
    + destruct (String.eqb_spec (String c s) suffix) as [<-|]; [intros _; by exists ""|].
      intros H. destruct (IH H) as [stem ->]. by exists (String c stem).
  - intros [stem ->]. induction stem as [|c stem IH]; rewrite endswith_eq.
    + cbn [String.app]. by rewrite String.eqb_refl.
    + cbn [String.app]. by destruct (String.eqb _ _).
Qed.

Lemma should_exclude_false (p : string) (patterns : list string) :
  _should_exclude p patterns = false <->
  forall pattern, In pattern patterns -> fnmatch.fnmatch p pattern = false.
Proof.
  induction patterns as [|pat patterns IH]; simpl.
  - split; [intros _ ? [] | done].
  - destruct (fnmatch.fnmatch p pat) eqn:E.
    + split; [done|]. intros H. rewrite <- E. apply H. by left.
    + rewrite IH. split.
      * intros H q [<-|Hq]; [done | by apply H].
      * intros H q Hq. apply H. by right.
Qed.

(** C7.  No path that [_filter_code_files] returns matches an exclude pattern,
    and each of them ends with one of the extensions of [code_extensions]. *)
Theorem filter_code_files_sound
    (tree : list TreeItem) (exclude_patterns : list string) (p : string) :
  In p (_filter_code_files tree exclude_patterns) ->
  _should_exclude p exclude_patterns = false /\
  (forall pattern, In pattern exclude_patterns -> fnmatch.fnmatch p pattern = false) /\
  (exists ext stem, In ext code_extensions /\ p = stem +:+ ext).
Proof.
  induction tree as [|item tree IH]; [done|].
  cbn [_filter_code_files].
  destruct (negb (String.eqb (type item) "blob")); [exact IH|].
  destruct (negb (existsb (fun ext => Py.endswith (path item) ext) code_extensions))
    eqn:Hext; [exact IH|].
  destruct (_should_exclude (path item) exclude_patterns) eqn:Hex; [exact IH|].
  intros [<-|Hin]; [|by apply IH].
  split; [done|]. split; [by apply should_exclude_false|].
  apply negb_false_iff in Hext.
  apply existsb_exists in Hext as (ext & Hin & Hend).
  apply endswith_spec in Hend as [stem ->]. by exists ext, stem.
Qed.

Lemma filter_code_files_sound_witness :
  In "src/a.py"
     (_filter_code_files
        (fixtures.listing ["src/a.py"; "src/b.py"; "README.md"; "tests/t.py"])
        ["tests/*"; "*.md"]) /\
  _filter_code_files
    (fixtures.listing ["src/a.py"; "src/b.py"; "README.md"; "tests/t.py"])
    ["tests/*"; "*.md"] = ["src/a.py"; "src/b.py"] /\
  (forall pattern, In pattern ["tests/*"; "*.md"] ->
                   fnmatch.fnmatch "src/a.py" pattern = false).
Proof.
  assert (H : In "src/a.py"
                (_filter_code_files
                   (fixtures.listing ["src/a.py"; "src/b.py"; "README.md"; "tests/t.py"])
                   ["tests/*"; "*.md"])) by (vm_compute; tauto).
  split; [exact H|]. split; [reflexivity|].
  exact (proj1 (proj2 (filter_code_files_sound _ _ _ H))).
Defined.

Lemma should_exclude_existsb (p : string) (patterns : list string) :
  _should_exclude p patterns = existsb (fun pattern => fnmatch.fnmatch p pattern) patterns.
Proof.
  induction patterns as [|pat patterns IH]; [done|].
  cbn [_should_exclude existsb]. rewrite IH. by destruct (fnmatch.fnmatch p pat).
Qed.

(** [_filter_code_files] keeps the surviving entries and their order. *)
Lemma filter_code_files_survivors (tree : list TreeItem) (exclude_patterns : list string) :
  _filter_code_files tree exclude_patterns = survivors tree exclude_patterns.
Proof.
  unfold survivors. induction tree as [|item tree IH]; [done|].
  cbn [_filter_code_files List.filter]. unfold survives at 1.
  rewrite <- should_exclude_existsb.
  destruct (String.eqb (type item) "blob"); cbn [negb andb]; [|exact IH].
  destruct (existsb _ code_extensions); cbn [negb andb]; [|exact IH].
  destruct (_should_exclude (path item) exclude_patterns); cbn [negb]; [exact IH|].
  cbn [map]. by rewrite IH.
Qed.

Lemma requested_fetch_loop (self : GitHubAPIClient) (owner repo : string)
    (code_files : list string) (st : Fetched) :
  requested (fold_left (fetch_one self owner repo) code_files st)
  = (requested st ++ code_files)%list.
Proof.
  revert st. induction code_files as [|f code_files IH]; intros st; simpl.
  - by rewrite app_nil_r.
  - rewrite IH. unfold fetch_one.
    destruct (_get_file_content self owner repo f); simpl; by rewrite <- app_assoc.
Qed.




End Filtering.


(** ** analyzer.py: construction, the per-file loop, aggregation *)

Section Aggregation.
Import models analyzer.

Lemma max_from_spec {A} (key : A -> Q) (l : list A) (best : A) :
  exists i : nat,
    (best :: l) !! i = Some (Py.max_from key best l) /\
    (forall j g, (best :: l) !! j = Some g -> (key g <= key (Py.max_from key best l))%Q) /\
    (forall j g, (j < i)%nat -> (best :: l) !! j = Some g ->
                 (key g < key (Py.max_from key best l))%Q).
Proof.
  revert best. induction l as [|x l IH]; intros best.
  - exists 0%nat. simpl. split; [done|]. split.
    + intros [|j] g; simpl; [intros [= <-]; apply Qle_refl | done].
    + intros j g Hj. lia.
  - cbn [Py.max_from]. destruct (Qlt_le_dec (key best) (key x)) as [Hlt|Hle].
    + destruct (IH x) as (i & Hi & Hmax & Hfirst).
      pose proof (Hmax 0%nat x eq_refl) as Hx.
      exists (S i). split; [exact Hi|]. split.
      * intros [|j] g; simpl.
        -- intros [= <-]. apply Qlt_le_weak. eapply Qlt_le_trans; eauto.
        -- apply Hmax.
      * intros [|j] g Hj; simpl.
        -- intros [= <-]. eapply Qlt_le_trans; eauto.
        -- apply Hfirst. lia.
    + destruct (IH best) as (i & Hi & Hmax & Hfirst).
      pose proof (Hmax 0%nat best eq_refl) as Hb.
      destruct i as [|i].
      * exists 0%nat. split; [exact Hi|]. split; [|intros; lia].
        intros [|[|j]] g; simpl.
        -- intros [= <-]. exact Hb.
        -- intros [= <-]. eapply Qle_trans; eauto.
        -- intros Hg. apply (Hmax (S j) g Hg).
      * exists (S (S i)). split; [exact Hi|]. split.
        -- intros [|[|j]] g; simpl.
           ++ intros [= <-]. exact Hb.
           ++ intros [= <-]. eapply Qle_trans; eauto.
           ++ intros Hg. apply (Hmax (S j) g Hg).
        -- intros [|[|j]] g Hj; simpl.
           ++ intros [= <-]. apply (Hfirst 0%nat best); [lia | done].
           ++ intros [= <-]. eapply Qle_lt_trans; [exact Hle|].
              apply (Hfirst 0%nat best); [lia | done].
           ++ intros Hg. apply (Hfirst (S j) g); [lia | exact Hg].
Qed.


Lemma round_half_even_bounds (y : Q) (N : Z) :
  (0 <= y)%Q -> (y <= inject_Z N)%Q -> 0 <= Py.round_half_even y <= N.
Proof.
  unfold Qle, inject_Z; simpl. intros H0 HN.
  unfold Py.round_half_even.
  set (n := Qnum y) in *. set (d := Z.pos (Qden y)) in *.
  assert (Hd : 0 < d) by (unfold d; lia).
  pose proof (Z.div_mod n d ltac:(lia)) as Hdm.
  pose proof (Z.mod_pos_bound n d Hd) as Hr.
  set (q := n / d) in *. set (r := n mod d) in *.
  assert (0 <= q) by nia.
  assert (q <= N) by nia.
  destruct (Z.ltb_spec (2 * r) d); [lia|].
  assert (q < N) by nia.
  destruct (Z.ltb_spec d (2 * r)); [lia|].
  destruct (Z.even q); lia.
Qed.


Lemma round2_bounds (x : Q) :
  (0 <= x)%Q -> (x <= 100)%Q -> (0 <= Py.round2 x)%Q /\ (Py.round2 x <= 100)%Q.
Proof.
  intros H0 H100.
  destruct (round_half_even_bounds (x * (100 # 1)) 10000) as [Hlo Hhi].
  - apply Qmult_le_0_compat; [done | discriminate].
  - change (inject_Z 10000) with ((100 # 1) * (100 # 1))%Q.
    apply Qmult_le_compat_r; [done | discriminate].
  - unfold Py.round2, Qle; simpl. lia.
Qed.
Lemma sum_bounds (l : list Q) (acc : Q) :
  (forall x, In x l -> (0 <= x)%Q /\ (x <= 100)%Q) ->
  (acc <= fold_left Qplus l acc)%Q /\
  (fold_left Qplus l acc <= acc + 100 * inject_Z (Z.of_nat (length l)))%Q.
Proof.
  revert acc. induction l as [|x l IH]; intros acc Hl.
  - cbn [fold_left length]. change (inject_Z (Z.of_nat 0)) with 0%Q. split; lra.
  - cbn [fold_left length]. rewrite Nat2Z.inj_succ. unfold Z.succ. rewrite inject_Z_plus.
    destruct (Hl x (or_introl eq_refl)) as [Hx0 Hx1].
    destruct (IH (acc + x)%Q) as [H1 H2]; [intros y Hy; apply Hl; by right|].
    change (inject_Z 1) with 1%Q. split; lra.
Qed.

Lemma mean_score_bounds (l : list FileComplexity) :
  l <> [] -> Forall in_range l ->
  (0 <= mean_score l)%Q /\ (mean_score l <= 100)%Q.
Proof.
  intros Hne Hall. unfold mean_score, Py.sum.
  destruct (sum_bounds (map total_score l) 0) as [H1 H2].
  { intros x Hx. apply in_map_iff in Hx as (f & <- & Hf).
    rewrite Forall_forall in Hall. apply list_elem_of_In in Hf.
    destruct (Hall f Hf) as [? _]. done. }
  rewrite length_map in H2.
  assert (Hpos : (0 < inject_Z (Z.of_nat (length l)))%Q).
  { change 0%Q with (inject_Z 0). rewrite <- Zlt_Qlt. destruct l; [done | simpl; lia]. }
  split.
  - apply Qle_shift_div_l; [done | lra].
  - apply Qle_shift_div_r; [done | lra].
Qed.

Lemma analyze_file_in_range w p content path c :
  analyze_file w p content path = Ok c -> in_range c.
Proof.
  unfold analyze_file. destruct (chain_invoke _ _ _ _) as [answer|e]; [|done].
  cbn. intros H. by apply FileComplexity_init_ok in H as [-> ?].
Qed.

Lemma analyze_one_spec w self st file :
  attempted (analyze_one w self st file) = (attempted st ++ [fst file])%list /\
  (Forall in_range (analyzed st) -> Forall in_range (analyzed (analyze_one w self st file))) /\
  (is_ok (analyze_file w (llm_provider self) (snd file) (fst file)) = false ->
   analyzed (analyze_one w self st file) = analyzed st).
Proof.
  destruct file as [path content]. unfold analyze_one. cbn [fst snd].
  destruct (analyze_file w (llm_provider self) content path) as [c|e] eqn:E; cbn.
  - split; [done|]. split; [|done].
    intros Hall. apply Forall_app. split; [done|]. constructor; [|constructor].
    by eapply analyze_file_in_range.
  - done.
Qed.

Lemma analyze_fold w self files st :
  attempted (fold_left (analyze_one w self) files st)
  = (attempted st ++ map fst files)%list /\
  (Forall in_range (analyzed st) ->
   Forall in_range (analyzed (fold_left (analyze_one w self) files st))) /\
  ((forall file, In file files ->
      is_ok (analyze_file w (llm_provider self) (snd file) (fst file)) = false) ->
   analyzed (fold_left (analyze_one w self) files st) = analyzed st).
Proof.
  revert st. induction files as [|file files IH]; intros st; cbn [fold_left map].
  - rewrite app_nil_r. done.
  - destruct (IH (analyze_one w self st file)) as (Ha & Hr & Hf).
    destruct (analyze_one_spec w self st file) as (Ha1 & Hr1 & Hf1).
    split; [|split].
    + rewrite Ha, Ha1, <- app_assoc. done.
    + intros Hall. apply Hr, Hr1, Hall.
    + intros Hfail. rewrite Hf.
      * apply Hf1. apply Hfail. by left.
      * intros f Hin. apply Hfail. by right.
Qed.

Lemma ComplexityReport_init_ok d :
  In (top_file d) (map file_path (analyzed_files d)) ->
  (0 <= score d)%Q -> (score d <= 100)%Q ->
  ComplexityReport_init d = Ok d.
Proof.
  intros Htop H0 H100. unfold ComplexityReport_init, vfinish.
  assert (E : errors (ComplexityReport_fields d) = []).
  { unfold ComplexityReport_fields. repeat rewrite errors_vfield.
    repeat rewrite app_if_nil. repeat rewrite is_ok_fmap.
    cbn [values vfield vstart is_ok errors].
    repeat split.
    - unfold validate_top_file. rewrite lookup_insert_eq.
      rewrite bool_decide_eq_true_2; [done|]. by apply list_elem_of_In.
    - by apply is_ok_ge_le. }
  by rewrite E.
Qed.

Lemma aggregate_ok w self url files l :
  l <> [] -> Forall in_range l ->
  exists report,
    aggregate w self url files l = Ok report /\
    analyzed_files report = l /\
    score report = Py.round2 (mean_score l) /\
    exists (i : nat) top,
      l !! i = Some top /\ top_file report = file_path top /\
      (forall j g, l !! j = Some g -> (total_score g <= total_score top)%Q) /\
      (forall j g, (j < i)%nat -> l !! j = Some g -> (total_score g < total_score top)%Q).
Proof.
  intros Hne Hall. destruct l as [|x l]; [done|].
  unfold aggregate. cbn [Py.max_by]. cbn [mbind result_bind Py.bind].
  unfold average. destruct (Z.eqb_spec (len (x :: l)) 0) as [Hz|_].
  { unfold len in Hz. simpl in Hz. lia. }
  cbn [Py.bind].
  destruct (max_from_spec total_score l x) as (i & Hi & Hmax & Hfirst).
  destruct (mean_score_bounds (x :: l) Hne Hall) as [Hm0 Hm1].
  destruct (round2_bounds _ Hm0 Hm1) as [Hr0 Hr1].
  eexists. split.
  - apply ComplexityReport_init_ok; cbn [top_file analyzed_files score].
    + apply in_map. apply list_elem_of_In. eapply list_elem_of_lookup_2. exact Hi.
    + exact Hr0.
    + exact Hr1.
  - cbn [analyzed_files score top_file]. split; [done|]. split; [done|].
    exists i, (Py.max_from total_score x l). done.
Qed.




(** C4 (amended).  When the analysis of every fetched file fails, every file
    has still been handed to the provider, in order, and [analyze] raises the
    [ValueError] of [max] on an empty sequence; no report is returned. *)
Theorem analyze_all_files_fail
    (w : World) (self : RepositoryAnalyzer) (url : string)
    (fetched : github_client.Fetched) :
  github_client.fetch_repository_files (github_client self) url (max_files self)
    (Some (exclude_patterns self)) = Ok fetched ->
  (forall file, In file (github_client.file_contents fetched) ->
     is_ok (analyze_file w (llm_provider self) (snd file) (fst file)) = false) ->
  analyze w self url
  = (map fst (github_client.file_contents fetched),
     Raise (Py.ValueError "max() arg is an empty sequence")).
Proof.
  intros Hfetch Hfail. unfold analyze. rewrite Hfetch.
  destruct (analyze_fold w self (github_client.file_contents fetched)
              {| attempted := []; analyzed := [] |}) as (Hatt & _ & Hnone).
  unfold analyze_loop. rewrite Hatt, (Hnone Hfail). reflexivity.
Qed.

Lemma analyze_all_files_fail_witness :
  analyze fixtures.failing_world (fixtures.analyzer_of ["a.py"; "b.py"] 50) fixtures.repo_url
  = (["a.py"; "b.py"], Raise (Py.ValueError "max() arg is an empty sequence")).
Proof.
  apply (analyze_all_files_fail fixtures.failing_world
           (fixtures.analyzer_of ["a.py"; "b.py"] 50) fixtures.repo_url
           {| github_client.requested := ["a.py"; "b.py"];
              github_client.file_contents := [("a.py", "# a.py"); ("b.py", "# b.py")] |}).
  - reflexivity.
  - intros file [<-|[<-|[]]]; reflexivity.
Defined.

(** C4 as stated fails: the exception raised when every file fails is a
    [ValueError], the class of the other errors of the package, and not a
    [NoAnalyzableFilesError]. *)
Lemma analyze_all_fail_is_value_error :
  exists e,
    snd (analyze fixtures.failing_world (fixtures.analyzer_of ["a.py"; "b.py"] 50)
           fixtures.repo_url) = Raise e /\
    exn_class e = "ValueError" /\
    exn_class e <> "NoAnalyzableFilesError".
Proof. eexists. split; [reflexivity|]. split; [reflexivity|]. discriminate. Qed.

(** C9.  An analyzer built with an empty list of exclude patterns has the
    default patterns, and is the analyzer built when the argument is omitted;
    a non-empty list is kept as it is. *)
Theorem init_empty_exclude_patterns
    (w : World) (client : github_client.GitHubAPIClient) (provider : string)
    (model : option string) (max_files : Z) (ra : RepositoryAnalyzer) :
  __init__ w client provider model max_files (Some []) = Ok ra ->
  exclude_patterns ra = ["tests/*"; "*.md"; "*.txt"] /\
  __init__ w client provider model max_files None = Ok ra /\
  (forall pattern patterns ra',
     __init__ w client provider model max_files (Some (pattern :: patterns)) = Ok ra' ->
     exclude_patterns ra' = pattern :: patterns).
Proof.
  unfold __init__. cbn [Py.or_list].
  destruct (_create_llm_provider w provider model) as [p|e]; cbn; [|done].
  intros [= <-]. split; [done|]. split; [done|].
  by intros pattern patterns ra' [= <-].
Qed.

Lemma init_empty_exclude_patterns_witness :
  exists ra,
    __init__ fixtures.failing_world (fixtures.client_of []) "openai" None 50 (Some []) = Ok ra /\
    exclude_patterns ra = ["tests/*"; "*.md"; "*.txt"] /\
    __init__ fixtures.failing_world (fixtures.client_of []) "openai" None 50 None = Ok ra.
Proof.
  eexists. split; [reflexivity|].
  destruct (init_empty_exclude_patterns fixtures.failing_world (fixtures.client_of [])
              "openai" None 50 _ eq_refl) as (Hdefault & Hnone & _).
  split; [exact Hdefault | exact Hnone].
Defined.

End Aggregation.


(** ** fnmatch: what an exclude pattern matches *)

Section Globbing.
Import fnmatch.

Lemma translate_loop_nil (fuel : nat) (res : list gtok) :
  translate_loop fuel "" res = res.
Proof. by destruct fuel. Qed.

Lemma translate_loop_plain (lit rest : string) (fuel : nat) (res : list gtok) :
  plain lit = true ->
  translate_loop (String.length lit + fuel) (lit +:+ rest) res
  = translate_loop fuel rest (res ++ map GLit (list_ascii_of_string lit))%list.
Proof.
  revert res. induction lit as [|c lit IH]; intros res Hp.
  - cbn. by rewrite app_nil_r.
  - cbn in Hp. apply andb_prop in Hp as [Hc Hp].
    cbn [String.length Nat.add String.app translate_loop list_ascii_of_string map].
    apply negb_true_iff in Hc. cbn in Hc.
    apply orb_false_elim in Hc as [H1 Hc]. apply orb_false_elim in Hc as [H2 Hc].
    apply orb_false_elim in Hc as [H3 _].
    rewrite H1, H2, H3. rewrite IH by done. by rewrite <- app_assoc.
Qed.

Lemma last_lits_not_star (l : list ascii) (res : list gtok) :
  match last (map GLit l) with
  | Some GStar => res
  | _ => (res ++ [GStar])%list
  end = (res ++ [GStar])%list.
Proof.
  destruct l as [|c l] using rev_ind; [done|].
  rewrite map_app. cbn. by rewrite last_snoc.
Qed.

Lemma translate_plain (lit : string) :
  plain lit = true -> translate lit = map GLit (list_ascii_of_string lit).
Proof.
  intros Hp. unfold translate.
  rewrite <- (str_app_nil_r lit) at 2. rewrite <- (Nat.add_0_r (String.length lit)).
  rewrite translate_loop_plain by done. by rewrite translate_loop_nil.
Qed.

Lemma translate_plain_star_plain (l1 l2 : string) :
  plain l1 = true -> plain l2 = true ->
  translate (l1 +:+ "*" +:+ l2)
  = (map GLit (list_ascii_of_string l1) ++ GStar :: map GLit (list_ascii_of_string l2))%list.
Proof.
  intros H1 H2. unfold translate.
  rewrite str_length_app. rewrite translate_loop_plain by done.
  cbn [String.app String.length translate_loop app]. cbn [Ascii.eqb Bool.eqb].
  rewrite last_lits_not_star.
  rewrite <- (str_app_nil_r l2) at 2. rewrite <- (Nat.add_0_r (String.length l2)).
  rewrite translate_loop_plain by done. rewrite translate_loop_nil.
  by rewrite <- app_assoc.
Qed.

Lemma gmatch_nil (s : string) : gmatch [] s = true <-> s = "".
Proof. cbn. apply String.eqb_eq. Qed.

Lemma gmatch_lits (l : string) (toks : list gtok) (s : string) :
  gmatch (map GLit (list_ascii_of_string l) ++ toks)%list s = true
  <-> exists s', s = l +:+ s' /\ gmatch toks s' = true.
Proof.
  revert s. induction l as [|c l IH]; intros s.
  - cbn. split; [intros H; by exists s | by intros (s' & -> & H)].
  - cbn [list_ascii_of_string map app gmatch]. destruct s as [|d s].
    + split; [done | by intros (s' & ? & _)].
    + rewrite andb_true_iff, IH. split.
      * intros (Hc & s' & -> & H). apply Ascii.eqb_eq in Hc as ->. by exists s'.
      * intros (s' & [= -> ->] & H). split; [apply Ascii.eqb_refl | by exists s'].
Qed.

Lemma gmatch_star_eq (toks : list gtok) (s : string) :
  gmatch (GStar :: toks) s
  = gmatch toks s ||
    match s with
    | EmptyString => false
    | String _ s' => gmatch (GStar :: toks) s'
    end.
Proof. by destruct s. Qed.

Lemma gmatch_star (toks : list gtok) (s : string) :
  gmatch (GStar :: toks) s = true
  <-> exists run s', s = run +:+ s' /\ gmatch toks s' = true.
Proof.
  induction s as [|c s IH]; rewrite gmatch_star_eq, orb_true_iff.
  - split.
    + intros [H|?]; [|done]. by exists "", "".
    + intros (run & s' & Hs & H). left. destruct run; [|done]. cbn in Hs. by subst.
  - rewrite IH. split.
    + intros [H|(run & s' & -> & H)]; [by exists "", (String c s)|].
      by exists (String c run), s'.
    + intros (run & s' & Hs & H). destruct run as [|d run]; cbn in Hs.
      * left. by subst.
      * right. injection Hs as -> ->. by exists run, s'.
Qed.

Lemma gmatch_only_lits (l s : string) :
  gmatch (map GLit (list_ascii_of_string l)) s = true <-> s = l.
Proof.
  rewrite <- (app_nil_r (map GLit (list_ascii_of_string l))). rewrite gmatch_lits.
  split.
  - intros (s' & -> & H). apply gmatch_nil in H as ->. apply str_app_nil_r.
  - intros ->. exists "". split; [by rewrite str_app_nil_r | done].
Qed.

(** C6 (amended).  In an exclude pattern [*] matches any run of characters,
    ['/'] included, and a character other than [*], [?], [[] matches itself
    only (so matching is case-sensitive): a pattern [l1*l2] with [l1] and [l2]
    free of special characters matches the paths that start with [l1] and end
    with [l2] after it, and a pattern free of special characters matches
    itself only. *)
Theorem fnmatch_star_matches_any_run (l1 l2 p : string) :
  plain l1 = true -> plain l2 = true ->
  (fnmatch.fnmatch p (l1 +:+ "*" +:+ l2) = true <-> exists run, p = l1 +:+ run +:+ l2) /\
  (fnmatch.fnmatch p l1 = true <-> p = l1).
Proof.
  intros H1 H2. unfold fnmatch.fnmatch, fnmatchcase, normcase. split.
  - rewrite translate_plain_star_plain by done. rewrite gmatch_lits. split.
    + intros (s' & -> & H). apply gmatch_star in H as (run & s'' & -> & H).
      apply gmatch_only_lits in H as ->. by exists run.
    + intros (run & ->). exists (run +:+ l2). split; [done|].
      apply gmatch_star. exists run, l2. split; [done|]. by apply gmatch_only_lits.
  - rewrite translate_plain by done. apply gmatch_only_lits.
Qed.

Lemma fnmatch_star_matches_any_run_witness :
  fnmatch.fnmatch "tests/unit/deep/test_x.py" "tests/*" = true /\
  (fnmatch.fnmatch "README.MD" "README.md" = true <-> "README.MD" = "README.md").
Proof.
  destruct (fnmatch_star_matches_any_run "tests/" "" "tests/unit/deep/test_x.py"
              eq_refl eq_refl) as [Hstar _].
  destruct (fnmatch_star_matches_any_run "README.md" "" "README.MD" eq_refl eq_refl)
    as [_ Hlit].
  split; [|exact Hlit].
  apply Hstar. by exists "unit/deep/test_x.py".
Defined.

(** C6 as stated fails: [tests/*] matches a path nested in a subdirectory of
    [tests/]. *)
Lemma should_exclude_nested_path :
  fnmatch.fnmatch "tests/sub/t.py" "tests/*" = true /\
  github_client._should_exclude "tests/sub/t.py" ["tests/*"] = true.
Proof. split; reflexivity. Qed.

End Globbing.


(** ** re: first matches, and all matches *)

Section Matching.
Import re.

Lemma strip_prefix_spec (p s r : string) :
  Py.strip_prefix p s = Some r <-> s = p +:+ r.
Proof.
  revert s. induction p as [|a p IH]; intros s; cbn.
  - split; [by intros [= ->] | by intros ->].
  - destruct s as [|b s]; [done|].
    destruct (Ascii.eqb_spec a b) as [->|Hne].
    + rewrite IH. split; [by intros -> | by intros [= ->]].
    + split; [done | intros [= ? ?]; congruence].
Qed.

Lemma substring_app (a r : string) : String.substring 0 (String.length a) (a +:+ r) = a.
Proof. induction a as [|c a IH]; cbn; [by destruct r | by rewrite IH]. Qed.

Lemma consumed_app (a r : string) : consumed (a +:+ r) r = a.
Proof.
  unfold consumed, Py.str_take. rewrite str_length_app.
  replace (String.length a + String.length r - String.length r)%nat
    with (String.length a) by lia.
  apply substring_app.
Qed.

Lemma in_runs (cls : ascii -> bool) (s a r : string) :
  In (a, r) (runs cls s) <-> a <> "" /\ Py.all_chars cls a = true /\ s = a +:+ r.
Proof.
  revert a. induction s as [|c s IH]; intros a; cbn [runs].
  - split; [done|]. intros (Ha & _ & Hs). destruct a; [done | discriminate].
  - destruct (cls c) eqn:Hc.
    + cbn [In]. rewrite in_map_iff. split.
      * intros [[= <- <-]|([a' r'] & [= <- <-] & Hin)].
        -- cbn. rewrite Hc. done.
        -- apply IH in Hin as (Ha & Hall & ->). cbn. rewrite Hc. done.
      * intros (Ha & Hall & Hs). destruct a as [|d a]; [done|].
        cbn in Hs, Hall. injection Hs as <- ->. destruct a as [|e a].
        -- left. done.
        -- right. exists (String e a, r). split; [done|]. apply IH.
           apply andb_prop in Hall as [_ Hall]. done.
    + split; [done|]. intros (Ha & Hall & Hs). destruct a as [|d a]; [done|].
      cbn in Hs, Hall. injection Hs as <- ->. rewrite Hc in Hall. done.
Qed.

(** The runs are listed shortest first. *)
Lemma runs_split (cls : ascii -> bool) (a r : string) :
  Py.all_chars cls a = true -> a <> "" ->
  exists init,
    runs cls (a +:+ r)
    = (init ++ (a, r) :: map (fun tr : string * string => (a +:+ fst tr, snd tr)) (runs cls r))%list /\
    forall x y, In (x, y) init -> exists z, z <> "" /\ a = x +:+ z /\ y = z +:+ r.
Proof.
  induction a as [|c a IH]; [done|]. intros Hall _.
  cbn in Hall. apply andb_prop in Hall as [Hc Hall].
  cbn [String.app runs]. rewrite Hc.
  destruct a as [|d a].
  - exists []. cbn. split; [done | by intros x y []].
  - destruct (IH Hall ltac:(done)) as (init & Hruns & Hinit).
    rewrite Hruns.
    exists ((String c "", String d a +:+ r)
              :: map (fun tr : string * string => (String c (fst tr), snd tr)) init).
    split.
    + cbn [app]. f_equal. rewrite map_app. cbn [map fst snd]. f_equal. f_equal.
      rewrite map_map. done.
    + intros x y [[= <- <-]|Hin].
      * exists (String d a). done.
      * apply in_map_iff in Hin as ([x' y'] & [= <- <-] & Hin).
        destruct (Hinit _ _ Hin) as (z & Hz & Ha & Hy).
        exists z. split; [done|]. split; [|done]. cbn. by rewrite <- Ha.
Qed.

Lemma head_flat_map_skip {A B} (f : A -> list B) (init later : list A) (x : A) :
  (forall y, In y init -> f y = []) ->
  f x <> [] ->
  head (flat_map f (init ++ x :: later)) = head (f x).
Proof.
  intros Hinit Hx. induction init as [|y init IH]; cbn [app flat_map].
  - destruct (f x); done.
  - rewrite (Hinit y) by (by left). cbn. apply IH. intros z Hz. apply Hinit. by right.
Qed.

(** The first match of a concatenation. *)
Lemma rmatch_cat_first (r1 r2 : regex) (s : string)
    (init later : list (list string * string)) (m1 m2 : list string * string) :
  rmatch r1 s = (init ++ m1 :: later)%list ->
  (forall m, In m init -> rmatch r2 (snd m) = []) ->
  head (rmatch r2 (snd m1)) = Some m2 ->
  head (rmatch (Cat r1 r2) s) = Some ((fst m1 ++ fst m2)%list, snd m2).
Proof.
  intros H1 Hinit H2. cbn [rmatch]. rewrite H1.
  rewrite head_flat_map_skip.
  - destruct (rmatch r2 (snd m1)); [done|]. cbn in *. by injection H2 as ->.
  - intros m Hm. by rewrite (Hinit m Hm).
  - destruct (rmatch r2 (snd m1)); done.
Qed.

Lemma search_here (r : regex) (s : string) (m : list string * string) :
  head (rmatch r s) = Some m -> search r s = Some (fst m).
Proof.
  intros H. destruct s; cbn [search]; destruct (rmatch r _); cbn in H; congruence.
Qed.

Lemma search_skip (r : regex) (c : ascii) (s : string) :
  rmatch r (String c s) = [] -> search r (String c s) = search r s.
Proof. intros H. cbn [search]. by rewrite H. Qed.

End Matching.

(** ** github_client.py: [parse_repo_url] *)

Section Parsing.
Import re github_client.

Lemma tail_git_matches (y : string) :
  rmatch (Cat (Opt (Lit ".git")) Eos) y <> [] ->
  y = "" \/ y = String "010" "" \/ y = ".git" \/ y = String "." (String "g" (String "i" (String "t" (String "010" "")))).
Proof.
  cbn [rmatch]. destruct (Py.strip_prefix ".git" y) as [r|] eqn:E.
  - apply strip_prefix_spec in E as ->. cbn [app flat_map fst snd map].
    destruct (String.eqb_spec r "") as [->|H1]; [intros _; tauto|].
    destruct (String.eqb_spec r (String "010" "")) as [->|H2]; [intros _; tauto|].
    cbn. done.
  - cbn [app flat_map fst snd map].
    destruct (String.eqb_spec y "") as [->|H1]; [intros _; tauto|].
    destruct (String.eqb_spec y (String "010" "")) as [->|H2]; [intros _; tauto|].
    cbn. done.
Qed.

Lemma tail_git_rejects (z tail : string) :
  z <> "" -> Py.ends_outside git_chars z = true -> tail = "" \/ tail = ".git" ->
  rmatch (Cat (Opt (Lit ".git")) Eos) (z +:+ tail) = [].
Proof.
  intros Hz Hend Htail.
  destruct (rmatch (Cat (Opt (Lit ".git")) Eos) (z +:+ tail)) as [|m l] eqn:E; [done|].
  exfalso. assert (Hne : rmatch (Cat (Opt (Lit ".git")) Eos) (z +:+ tail) <> [])
    by (rewrite E; done).
  apply tail_git_matches in Hne. destruct Htail as [-> | ->].
  - rewrite str_app_nil_r in Hne.
    destruct Hne as [-> | [-> | [-> | ->]]]; vm_compute in Hend; done.
  - assert (Hlen : forall y, z +:+ ".git" = y -> String.length y = (String.length z + 4)%nat).
    { intros y <-. by rewrite str_length_app. }
    destruct Hne as [H | [H | [H | H]]]; pose proof (Hlen _ H) as HL; cbn in HL; try lia.
    + destruct z; [done | cbn in HL; lia].
    + destruct z as [|c [|d z]]; cbn in HL; try lia. cbn in H. discriminate.
Qed.

Lemma rmatch_git_start (c : ascii) (s : string) :
  Ascii.eqb "g" c = false -> rmatch pattern_git (String c s) = [].
Proof. intros H. unfold pattern_git. cbn [rmatch Py.strip_prefix]. by rewrite H. Qed.

Lemma rmatch_lit_app (l s : string) : rmatch (Lit l) (l +:+ s) = [([], s)].
Proof.
  cbn [rmatch]. destruct (Py.strip_prefix l (l +:+ s)) as [r|] eqn:E.
  - apply strip_prefix_spec in E. by apply String.app_inj in E as <-.
  - assert (H : Py.strip_prefix l (l +:+ s) = Some s) by by apply strip_prefix_spec.
    congruence.
Qed.

Lemma segment_spec (s : string) :
  segment s = true <-> s <> "" /\ Py.all_chars not_slash s = true.
Proof.
  unfold segment. rewrite andb_true_iff, negb_true_iff, String.eqb_neq. done.
Qed.

(** The greedy group [([^/]+)] in front of a ['/']: its first match is the
    whole segment. *)
Lemma rmatch_greedy_segment (a r : string) :
  segment a = true ->
  exists later,
    rmatch (Group (Plus true not_slash)) (a +:+ String "/" r)
    = ([a], String "/" r) :: later.
Proof.
  intros Ha. apply segment_spec in Ha as [Hne Hall].
  destruct (runs_split not_slash a (String "/" r) Hall Hne) as (init & Hruns & _).
  cbn [rmatch]. rewrite Hruns. cbn [runs not_slash Ascii.eqb Bool.eqb negb map].
  rewrite map_app, rev_app_distr. cbn [map rev app fst snd].
  rewrite consumed_app. eauto.
Qed.

(** The lazy group [([^/]+?)] before [(?:\.git)?$]: the matches tried first
    leave a text on which the rest of the pattern fails. *)
Lemma rmatch_lazy_segment (a tail : string) :
  segment a = true ->
  exists init later,
    rmatch (Group (Plus false not_slash)) (a +:+ tail)
    = (init ++ ([a], tail) :: later)%list /\
    forall m, In m init -> exists z, z <> "" /\ (exists x, a = x +:+ z) /\ snd m = z +:+ tail.
Proof.
  intros Ha. apply segment_spec in Ha as [Hne Hall].
  destruct (runs_split not_slash a tail Hall Hne) as (init & Hruns & Hinit).
  cbn [rmatch]. rewrite Hruns. rewrite !map_app. cbn [map fst snd].
  rewrite consumed_app. eexists _, _. split; [reflexivity|].
  intros m Hm. apply in_map_iff in Hm as (m' & <- & Hm').
  apply in_map_iff in Hm' as ([x y] & <- & Hxy).
  destruct (Hinit _ _ Hxy) as (z & Hz & Hx & Hy). cbn. exists z. eauto.
Qed.

Lemma last_char_app (x z : string) :
  z <> "" -> Py.last_char (x +:+ z) = Py.last_char z.
Proof.
  intros Hz. induction x as [|c x IH]; [done|].
  cbn [String.app Py.last_char]. rewrite IH.
  destruct (x +:+ z) eqn:E; [|done]. destruct x; [cbn in E; congruence | discriminate].
Qed.

Lemma head_git_match (owner repo tail : string) :
  segment owner = true -> segment repo = true ->
  Py.ends_outside git_chars repo = true ->
  tail = "" \/ tail = ".git" ->
  head (rmatch pattern_git ("github.com/" +:+ owner +:+ "/" +:+ repo +:+ tail))
  = Some ([owner; repo], "").
Proof.
  intros Ho Hr Hend Htail. unfold pattern_git.
  eapply (rmatch_cat_first _ _ _ [] [] ([], _) ([owner; repo], "")).
  { apply rmatch_lit_app. }
  { intros m []. }
  cbn [snd].
  destruct (rmatch_greedy_segment owner (repo +:+ tail) Ho) as (later & Hg).
  eapply (rmatch_cat_first _ _ _ [] later ([owner], _) ([repo], "")).
  { exact Hg. }
  { intros m []. }
  cbn [snd].
  eapply (rmatch_cat_first _ _ _ [] [] ([], _) ([repo], "")).
  { apply (rmatch_lit_app "/"). }
  { intros m []. }
  cbn [snd].
  destruct (rmatch_lazy_segment repo tail Hr) as (init & later' & Hl & Hinit).
  eapply (rmatch_cat_first _ _ _ init later' ([repo], tail) ([], "")).
  { exact Hl. }
  { intros m Hm. destruct (Hinit m Hm) as (z & Hz & [x Hx] & ->).
    apply tail_git_rejects; [done | | done].
    unfold Py.ends_outside in *. rewrite Hx, last_char_app in Hend; done. }
  cbn [snd]. destruct Htail as [-> | ->]; reflexivity.
Qed.

Lemma search_git_url (owner repo tail : string) :
  segment owner = true -> segment repo = true ->
  Py.ends_outside git_chars repo = true ->
  tail = "" \/ tail = ".git" ->
  search pattern_git ("https://github.com/" +:+ owner +:+ "/" +:+ repo +:+ tail)
  = Some [owner; repo].
Proof.
  intros Ho Hr Hend Htail.
  change ("https://github.com/" +:+ owner +:+ "/" +:+ repo +:+ tail)
    with ("https://" +:+ ("github.com/" +:+ owner +:+ "/" +:+ repo +:+ tail)).
  cbn [String.app].
  do 8 (rewrite search_skip by (by apply rmatch_git_start)).
  apply (search_here _ _ ([owner; repo], "")).
  by apply head_git_match.
Qed.

Lemma in_rmatch_lit (l s : string) (m : list string * string) :
  In m (rmatch (Lit l) s) <-> fst m = [] /\ s = l +:+ snd m.
Proof.
  cbn [rmatch]. destruct (Py.strip_prefix l s) as [r|] eqn:E.
  - apply strip_prefix_spec in E as ->. cbn [In]. split.
    + intros [<-|[]]. done.
    + intros [H1 H2]. left. destruct m as [g r']. cbn in *. subst g.
      by apply String.app_inj in H2 as ->.
  - split; [done|]. intros [_ H]. apply strip_prefix_spec in H. congruence.
Qed.

Lemma in_rmatch_plus (greedy : bool) (cls : ascii -> bool) (s : string)
    (m : list string * string) :
  In m (rmatch (Plus greedy cls) s)
  <-> fst m = [] /\ exists a, a <> "" /\ Py.all_chars cls a = true /\ s = a +:+ snd m.
Proof.
  cbn [rmatch].
  assert (H : In m (map (fun tr : string * string => ([] : list string, snd tr)) (runs cls s))
              <-> fst m = [] /\ exists a, a <> "" /\ Py.all_chars cls a = true /\ s = a +:+ snd m).
  { rewrite in_map_iff. split.
    - intros ([a r] & <- & Hin). apply in_runs in Hin. cbn. split; [done|]. by exists a.
    - intros (Hg & a & Ha). exists (a, snd m). split.
      + destruct m; cbn in *. by subst.
      + by apply in_runs. }
  destruct greedy; [rewrite <- in_rev|]; exact H.
Qed.

Lemma in_rmatch_group (r : regex) (s : string) (m : list string * string) :
  In m (rmatch (Group r) s)
  <-> exists m', In m' (rmatch r s) /\ m = (consumed s (snd m') :: fst m', snd m').
Proof.
  cbn [rmatch]. rewrite in_map_iff. split.
  - intros (m' & <- & Hin). by exists m'.
  - intros (m' & Hin & ->). by exists m'.
Qed.

Lemma in_rmatch_cat (r1 r2 : regex) (s : string) (m : list string * string) :
  In m (rmatch (Cat r1 r2) s)
  <-> exists m1 m2, In m1 (rmatch r1 s) /\ In m2 (rmatch r2 (snd m1)) /\
                    m = ((fst m1 ++ fst m2)%list, snd m2).
Proof.
  cbn [rmatch]. rewrite in_flat_map. split.
  - intros (m1 & H1 & H). apply in_map_iff in H as (m2 & <- & H2). eauto.
  - intros (m1 & m2 & H1 & H2 & ->). exists m1. split; [done|].
    apply in_map_iff. eauto.
Qed.

(** A match of [github\.com/([^/]+)/([^/]+)...] starts a GitHub path and
    captures two groups. *)
Lemma in_rmatch_github (r : regex) (s : string) (m : list string * string) :
  In m (rmatch (Cat (Lit "github.com/")
                  (Cat (Group (Plus true not_slash)) (Cat (Lit "/") r))) s) ->
  exists owner rest m',
    s = "github.com/" +:+ owner +:+ "/" +:+ rest /\ segment owner = true /\
    In m' (rmatch r rest) /\ fst m = (owner :: fst m') /\ snd m = snd m'.
Proof.
  intros H. apply in_rmatch_cat in H as (m1 & m2 & H1 & H2 & ->).
  apply in_rmatch_lit in H1 as [Hg1 ->].
  apply in_rmatch_cat in H2 as (m3 & m4 & H3 & H4 & ->).
  apply in_rmatch_group in H3 as (m3' & H3 & ->).
  apply in_rmatch_plus in H3 as (Hg3 & a & Hne & Hall & Hs).
  apply in_rmatch_cat in H4 as (m5 & m6 & H5 & H6 & ->).
  apply in_rmatch_lit in H5 as [Hg5 Hs5]. cbn [fst snd] in *.
  exists a, (snd m5), m6. rewrite Hs, Hs5, Hg1, Hg3, Hg5. cbn [app].
  rewrite <- Hs5, consumed_app. repeat split; try done.
  by apply segment_spec.
Qed.

Lemma in_rmatch_segment (greedy : bool) (s : string) (m : list string * string) :
  In m (rmatch (Group (Plus greedy not_slash)) s) ->
  (exists c rest, s = String c rest /\ c <> "/"%char) /\ exists g, fst m = [g].
Proof.
  intros H. apply in_rmatch_group in H as (m' & H & ->).
  apply in_rmatch_plus in H as (Hg & a & Hne & Hall & ->). split.
  - destruct a as [|c a]; [done|]. exists c, (a +:+ snd m'). split; [done|].
    cbn in Hall. apply andb_prop in Hall as [Hc _]. unfold not_slash in Hc.
    apply negb_true_iff, Ascii.eqb_neq in Hc. done.
  - cbn. rewrite Hg. eauto.
Qed.

Lemma in_rmatch_pattern_any (s : string) (m : list string * string) :
  In m (rmatch pattern_any s) ->
  has_github_path s /\ exists g1 g2, fst m = [g1; g2].
Proof.
  intros H. apply in_rmatch_github in H as (owner & rest & m' & -> & Ho & Hm' & Hf & _).
  apply in_rmatch_segment in Hm' as [(c & rest' & -> & Hc) [g Hg]]. split.
  - by exists "", owner, c, rest'.
  - rewrite Hf, Hg. eauto.
Qed.

Lemma in_rmatch_pattern_git (s : string) (m : list string * string) :
  In m (rmatch pattern_git s) -> has_github_path s.
Proof.
  intros H. apply in_rmatch_github in H as (owner & rest & m' & -> & Ho & Hm' & _).
  apply in_rmatch_cat in Hm' as (m1 & m2 & H1 & _).
  apply in_rmatch_segment in H1 as [(c & rest' & -> & Hc) _].
  by exists "", owner, c, rest'.
Qed.

Lemma rmatch_pattern_any_complete (owner rest : string) (c : ascii) :
  segment owner = true -> c <> "/"%char ->
  rmatch pattern_any ("github.com/" +:+ owner +:+ "/" +:+ String c rest) <> [].
Proof.
  intros Ho Hc.
  assert (H : In ([owner; String c ""], rest)
                 (rmatch pattern_any ("github.com/" +:+ owner +:+ "/" +:+ String c rest))).
  { apply segment_spec in Ho as [Hne Hall]. unfold pattern_any.
    apply in_rmatch_cat. exists ([], owner +:+ "/" +:+ String c rest), ([owner; String c ""], rest).
    split; [by apply in_rmatch_lit|]. split; [|done]. cbn [snd].
    apply in_rmatch_cat. exists ([owner], "/" +:+ String c rest), ([String c ""], rest).
    split; [|split; [|done]].
    - apply in_rmatch_group. exists ([], "/" +:+ String c rest). split.
      + apply in_rmatch_plus. split; [done|]. by exists owner.
      + cbn [fst snd]. by rewrite consumed_app.
    - cbn [snd]. apply in_rmatch_cat. exists ([], String c rest), ([String c ""], rest).
      split; [by apply in_rmatch_lit|]. split; [|done]. cbn [snd].
      apply in_rmatch_group. exists ([], rest). split.
      + apply in_rmatch_plus. split; [done|]. exists (String c ""). split; [done|].
        split; [|done]. cbn. unfold not_slash.
        rewrite andb_true_r. by apply negb_true_iff, Ascii.eqb_neq.
      + cbn [fst snd]. change (String c rest) with (String c "" +:+ rest).
        by rewrite consumed_app. }
  intros E. rewrite E in H. done.
Qed.

Lemma has_github_path_suffix (before s : string) :
  has_github_path s -> has_github_path (before +:+ s).
Proof.
  intros (b & o & c & rest & -> & Ho & Hc).
  exists (before +:+ b), o, c, rest. by rewrite str_app_assoc.
Qed.

Lemma search_some (r : regex) (url : string) (g : list string) :
  search r url = Some g ->
  exists before s m, url = before +:+ s /\ In m (rmatch r s) /\ g = fst m.
Proof.
  induction url as [|c url IH]; cbn [search].
  - destruct (rmatch r "") as [|m l] eqn:E; [done|]. intros [= <-].
    exists "", "", m. rewrite E. split; [done|]. split; [by left | done].
  - destruct (rmatch r (String c url)) as [|m l] eqn:E.
    + intros H. destruct (IH H) as (before & s & m & -> & Hm & ->).
      by exists (String c before), s, m.
    + intros [= <-]. exists "", (String c url), m. rewrite E.
      split; [done|]. split; [by left | done].
Qed.

Lemma search_complete (r : regex) (before s : string) :
  rmatch r s <> [] -> exists g, search r (before +:+ s) = Some g.
Proof.
  intros Hs. induction before as [|c before IH].
  - cbn [String.app]. destruct (rmatch r s) as [|m l] eqn:E; [done|].
    exists (fst m). destruct s; cbn [search]; by rewrite E.
  - cbn [String.app search].
    destruct (rmatch r (String c (before +:+ s))); [exact IH | eauto].
Qed.

Lemma search_none (r : regex) (url : string) :
  (forall before s m, url = before +:+ s -> ~ In m (rmatch r s)) ->
  search r url = None.
Proof.
  intros H. destruct (search r url) as [g|] eqn:E; [|done].
  apply search_some in E as (before & s & m & Hurl & Hm & _).
  destruct (H before s m Hurl Hm).
Qed.

Lemma rstrip_outside (chars s : string) :
  Py.ends_outside chars s = true -> Py.rstrip chars s = s.
Proof.
  unfold Py.ends_outside. induction s as [|c s IH]; [done|].
  cbn [Py.rstrip Py.last_char]. destruct s as [|d s].
  - cbn. intros H. apply negb_true_iff in H. by rewrite H.
  - intros H. rewrite (IH H). done.
Qed.

Lemma ends_outside_git (s : string) :
  Py.ends_outside git_chars s = true -> Py.ends_outside ".git" s = true.
Proof.
  unfold Py.ends_outside, git_chars. destruct (Py.last_char s) as [c|]; [|done].
  cbn [Py.char_in]. rewrite !negb_true_iff. intros H.
  by apply orb_false_elim in H as [_ H].
Qed.

Lemma parse_repo_url_accepts (url : string) :
  has_github_path url -> exists owner repo, parse_repo_url url = Ok (owner, repo).
Proof.
  intros (before & o & c & rest & -> & Ho & Hc).
  destruct (search_complete pattern_any before _ (rmatch_pattern_any_complete o rest c Ho Hc))
    as [g Hg].
  unfold parse_repo_url, patterns. cbn [parse_with]. rewrite Hg.
  destruct (search pattern_git _); eauto.
Qed.

Lemma parse_repo_url_rejects (url : string) :
  ~ has_github_path url ->
  parse_repo_url url = Raise (Py.ValueError ("Invalid GitHub URL: " +:+ url)).
Proof.
  intros Hno. unfold parse_repo_url, patterns. cbn [parse_with].
  rewrite (search_none pattern_git), (search_none pattern_any); [done| |].
  - intros before s m -> Hm. apply Hno, has_github_path_suffix.
    by apply in_rmatch_pattern_any in Hm as [? _].
  - intros before s m -> Hm. apply Hno, has_github_path_suffix.
    by apply in_rmatch_pattern_git in Hm.
Qed.

(** C2 (amended).  For an owner and a repository name that are non-empty and
    free of ['/'], the name ending in none of ['.'], ['g'], ['i'], ['t'] and
    newline, [parse_repo_url] returns the pair (owner, name) for
    [https://github.com/owner/name] and for [https://github.com/owner/name.git].
    A string is accepted whenever it holds [github.com/], a segment, ['/'] and
    one more character that is not ['/'], whatever comes before or after;
    every other string raises [ValueError]. *)
Theorem parse_repo_url_github (owner repo url : string) :
  segment owner = true -> segment repo = true ->
  Py.ends_outside git_chars repo = true ->
  parse_repo_url ("https://github.com/" +:+ owner +:+ "/" +:+ repo) = Ok (owner, repo) /\
  parse_repo_url ("https://github.com/" +:+ owner +:+ "/" +:+ repo +:+ ".git")
  = Ok (owner, repo) /\
  (has_github_path url -> exists o r, parse_repo_url url = Ok (o, r)) /\
  (~ has_github_path url ->
   parse_repo_url url = Raise (Py.ValueError ("Invalid GitHub URL: " +:+ url))).
Proof.
  intros Ho Hr Hend.
  pose proof (rstrip_outside ".git" repo (ends_outside_git repo Hend)) as Hstrip.
  split; [|split; [|split]].
  - unfold parse_repo_url, patterns. cbn [parse_with].
    rewrite <- (str_app_nil_r repo) at 1.
    rewrite (search_git_url owner repo "" Ho Hr Hend (or_introl eq_refl)).
    cbn [group nth Nat.sub]. by rewrite Hstrip.
  - unfold parse_repo_url, patterns. cbn [parse_with].
    rewrite (search_git_url owner repo ".git" Ho Hr Hend (or_intror eq_refl)).
    cbn [group nth Nat.sub]. by rewrite Hstrip.
  - apply parse_repo_url_accepts.
  - apply parse_repo_url_rejects.
Qed.

Lemma parse_repo_url_github_witness :
  parse_repo_url "https://github.com/owner/repo" = Ok ("owner", "repo") /\
  parse_repo_url "https://github.com/owner/repo.git" = Ok ("owner", "repo").
Proof.
  destruct (parse_repo_url_github "owner" "repo" "https://example.com/invalid"
              eq_refl eq_refl eq_refl) as (H1 & H2 & _).
  split; [exact H1 | exact H2].
Defined.

(** C2 as stated fails: a URL of the form host/owner/repo on another host is
    refused, and a string that has more than the three parts is accepted. *)
Lemma parse_repo_url_other_forms :
  parse_repo_url "https://gitlab.com/owner/repo"
  = Raise (Py.ValueError "Invalid GitHub URL: https://gitlab.com/owner/repo") /\
  parse_repo_url "https://github.com/owner/repo/tree/main" = Ok ("owner", "repo").
Proof. split; reflexivity. Qed.

(** What [rstrip(".git")] does to a name that ends in letters of [.git]. *)
Example parse_repo_url_widget :
  parse_repo_url "https://github.com/owner/widget.git" = Ok ("owner", "widge").
Proof. reflexivity. Qed.

End Parsing.


(** * Further properties *)

(** ** Stable descending sort *)

Section Sorting.
Import builtins.
Context {A : Type} (lt : A -> A -> bool).
Hypothesis lt_asym : forall x y, lt x y = true -> lt y x = false.
Hypothesis lt_neg_trans : forall x y z, lt x y = false -> lt y z = false -> lt x z = false.

Lemma insort_perm (x : A) (l : list A) : Permutation (insort lt x l) (x :: l).
Proof.
  induction l as [|y l IH]; cbn [insort]; [done|].
  destruct (lt x y); [|done]. rewrite IH. apply perm_swap.
Qed.

Lemma sorted_reverse_perm (l : list A) : Permutation (sorted_reverse lt l) l.
Proof.
  unfold sorted_reverse. induction l as [|x l IH]; cbn [fold_right]; [done|].
  rewrite insort_perm. by constructor.
Qed.

Lemma insort_sorted (x : A) (l : list A) :
  StronglySorted (fun a b => lt a b = false) l ->
  StronglySorted (fun a b => lt a b = false) (insort lt x l).
Proof.
  induction 1 as [|y l Hs IH Hy]; cbn [insort].
  - repeat constructor.
  - destruct (lt x y) eqn:E.
    + constructor; [exact IH|].
      eapply Permutation_Forall; [symmetry; apply insort_perm|].
      constructor; [by apply lt_asym | exact Hy].
    + constructor; [by constructor|]. constructor; [exact E|].
      eapply List.Forall_impl; [|exact Hy]. intros z Hz. by eapply lt_neg_trans.
Qed.

Lemma sorted_reverse_sorted (l : list A) :
  StronglySorted (fun a b => lt a b = false) (sorted_reverse lt l).
Proof.
  unfold sorted_reverse. induction l as [|x l IH]; cbn [fold_right]; [constructor|].
  by apply insort_sorted.
Qed.

(** Stability: the elements of one key class keep their order. *)
Lemma insort_filter (P : A -> bool) (x : A) (l : list A) :
  (forall a b, P a = true -> P b = true -> lt a b = false) ->
  List.filter P (insort lt x l) = List.filter P (x :: l).
Proof.
  intros HP. induction l as [|y l IH]; cbn [insort]; [done|].
  destruct (lt x y) eqn:E; [|done].
  cbn [List.filter] in *. rewrite IH.
  destruct (P x) eqn:Px, (P y) eqn:Py; try done.
  rewrite (HP x y Px Py) in E. done.
Qed.

Lemma sorted_reverse_filter (P : A -> bool) (l : list A) :
  (forall a b, P a = true -> P b = true -> lt a b = false) ->
  List.filter P (sorted_reverse lt l) = List.filter P l.
Proof.
  intros HP. unfold sorted_reverse. induction l as [|x l IH]; cbn [fold_right]; [done|].
  rewrite insort_filter by done. cbn [List.filter]. by rewrite IH.
Qed.
End Sorting.

Lemma strongly_sorted_impl {A} (R R' : A -> A -> Prop) (l : list A) :
  (forall a b, R a b -> R' a b) -> StronglySorted R l -> StronglySorted R' l.
Proof.
  intros HR. induction 1 as [|x l Hs IH Hx]; constructor; [exact IH|].
  eapply List.Forall_impl; [|exact Hx]. apply HR.
Qed.

(** ** models.py: the derived views of a report *)

Section Views.
Import models report_views builtins.

Lemma Qltb_true (a b : Q) : Qltb a b = true <-> (a < b)%Q.
Proof.
  unfold Qltb. destruct (Qlt_le_dec a b) as [H|H]; split; try done.
  intros H'. exfalso. by eapply Qlt_not_le.
Qed.

Lemma Qltb_false (a b : Q) : Qltb a b = false <-> (b <= a)%Q.
Proof.
  unfold Qltb. destruct (Qlt_le_dec a b) as [H|H]; split; try done.
  intros H'. exfalso. by eapply Qlt_not_le.
Qed.

(** X3.  [get_files_by_complexity] returns the analyzed files whose total score
    reaches the threshold, each as often as it is in the report, by
    descending total score, files of equal score in the order of the
    report. *)
Theorem get_files_by_complexity_spec (self : ComplexityReport) (threshold : Q) :
  Permutation (get_files_by_complexity self threshold)
    (List.filter (fun f => Qle_bool threshold (total_score f)) (analyzed_files self)) /\
  (forall f, In f (get_files_by_complexity self threshold)
             <-> In f (analyzed_files self) /\ (threshold <= total_score f)%Q) /\
  StronglySorted (fun a b => (total_score b <= total_score a)%Q)
    (get_files_by_complexity self threshold) /\
  (forall q, List.filter (fun f => Qeq_bool (total_score f) q)
               (get_files_by_complexity self threshold)
             = List.filter (fun f => Qeq_bool (total_score f) q)
                 (List.filter (fun f => Qle_bool threshold (total_score f))
                    (analyzed_files self))).
Proof.
  unfold get_files_by_complexity.
  set (lt := fun x y => Qltb (total_score x) (total_score y)).
  assert (Hasym : forall x y, lt x y = true -> lt y x = false).
  { intros x y H. apply Qltb_true in H. apply Qltb_false. by apply Qlt_le_weak. }
  assert (Htrans : forall x y z, lt x y = false -> lt y z = false -> lt x z = false).
  { intros x y z H1 H2. apply Qltb_false in H1, H2. apply Qltb_false.
    by eapply Qle_trans. }
  pose proof (sorted_reverse_perm lt
                (List.filter (fun f => Qle_bool threshold (total_score f))
                   (analyzed_files self))) as Hperm.
  split; [exact Hperm|]. split; [|split].
  - intros f. split.
    + intros H. eapply Permutation_in in H; [|exact Hperm].
      apply filter_In in H as [H1 H2]. by apply Qle_bool_iff in H2.
    + intros [H1 H2]. eapply Permutation_in; [symmetry; exact Hperm|].
      apply filter_In. split; [done|]. by apply Qle_bool_iff.
  - eapply strongly_sorted_impl; [|by apply sorted_reverse_sorted].
    intros a b H. by apply Qltb_false in H.
  - intros q. apply sorted_reverse_filter. intros a b Ha Hb.
    apply Qeq_bool_iff in Ha, Hb. apply Qltb_false. rewrite Ha, Hb. apply Qle_refl.
Qed.

Lemma dict_get_put {V} (k k' : string) (v default : V) (d : list (string * V)) :
  dict_get (dict_put k v d) k' default
  = if String.eqb k k' then v else dict_get d k' default.
Proof.
  induction d as [|[k0 v0] d IH]; cbn [dict_put dict_get].
  - done.
  - destruct (String.eqb_spec k0 k) as [->|Hne]; cbn [dict_get].
    + by destruct (String.eqb k k').
    + rewrite IH. destruct (String.eqb_spec k0 k') as [->|Hne']; [|done].
      destruct (String.eqb_spec k k'); [congruence | done].
Qed.

Lemma in_keys_put {V} (k k' : string) (v : V) (d : list (string * V)) :
  In k' (map fst (dict_put k v d)) <-> k' = k \/ In k' (map fst d).
Proof.
  induction d as [|[k0 v0] d IH]; cbn [dict_put map fst In].
  - split; [intros [<-|[]]; by left | intros [->|[]]; by left].
  - destruct (String.eqb_spec k0 k) as [->|Hne]; cbn [map fst In].
    + split; [intros [<-|H]; [by left | by right; right] | ].
      intros [->|[<-|H]]; [by left | by left | by right].
    + rewrite IH. tauto.
Qed.

Lemma nodup_keys_put {V} (k : string) (v : V) (d : list (string * V)) :
  List.NoDup (map fst d) -> List.NoDup (map fst (dict_put k v d)).
Proof.
  induction d as [|[k0 v0] d IH]; cbn [dict_put map fst]; intros Hd.
  - repeat constructor. intros [].
  - apply List.NoDup_cons_iff in Hd as [Hk0 Hd].
    destruct (String.eqb_spec k0 k) as [->|Hne]; cbn [map fst].
    + by constructor.
    + constructor; [|by apply IH]. rewrite in_keys_put. intros [->|H]; done.
Qed.

Lemma in_dict_get {V} (p : string) (n default : V) (d : list (string * V)) :
  List.NoDup (map fst d) ->
  In (p, n) d <-> In p (map fst d) /\ dict_get d p default = n.
Proof.
  induction d as [|[k0 v0] d IH]; cbn [map fst In dict_get]; intros Hd; [tauto|].
  apply List.NoDup_cons_iff in Hd as [Hk0 Hd].
  destruct (String.eqb_spec k0 p) as [->|Hne].
  - split.
    + intros [H|Hin]; [injection H as ->; split; [by left | done]|].
      destruct Hk0. apply in_map_iff. by exists (p, n).
    + intros [_ ->]. by left.
  - rewrite (IH Hd). split.
    + intros [H|[? ?]]; [injection H as ? ?; done | tauto].
    + intros [[?|?] ?]; [done | tauto].
Qed.

Lemma occurrences_snoc (p q : string) (l : list string) :
  occurrences p (l ++ [q]) = occurrences p l + (if String.eqb p q then 1 else 0).
Proof.
  unfold occurrences. rewrite List.filter_app, length_app. cbn [List.filter].
  destruct (String.eqb p q); cbn [length]; lia.
Qed.

Lemma count_pattern_counts (d : list (string * Z)) (l : list string) (q : string) :
  counts_of d l -> counts_of (count_pattern d q) (l ++ [q]).
Proof.
  intros (Hnd & Hkeys & Hget). unfold count_pattern. split; [|split].
  - by apply nodup_keys_put.
  - intros p. rewrite in_keys_put, in_app_iff, Hkeys. cbn [In].
    split; [intros [->|H]; [right; by left | by left] | ].
    intros [H|[->|[]]]; [by right | by left].
  - intros p. rewrite dict_get_put, occurrences_snoc, !Hget.
    destruct (String.eqb_spec q p) as [->|Hne].
    + by rewrite String.eqb_refl.
    + destruct (String.eqb_spec p q); [congruence | lia].
Qed.

Lemma fold_count_pattern (ps : list string) (d : list (string * Z)) (l : list string) :
  counts_of d l -> counts_of (fold_left count_pattern ps d) (l ++ ps).
Proof.
  revert d l. induction ps as [|q ps IH]; intros d l Hd; cbn [fold_left].
  - by rewrite app_nil_r.
  - replace (l ++ q :: ps)%list with ((l ++ [q]) ++ ps)%list by by rewrite <- app_assoc.
    apply IH. by apply count_pattern_counts.
Qed.

Lemma pattern_counts_of_flat (files : list FileComplexity) (d : list (string * Z)) :
  fold_left (fun pattern_counts file =>
               fold_left count_pattern (patterns_detected file) pattern_counts) files d
  = fold_left count_pattern (all_patterns files) d.
Proof.
  revert d. induction files as [|f files IH]; intros d; [done|].
  unfold all_patterns. cbn [fold_left map concat]. rewrite fold_left_app. apply IH.
Qed.

Lemma pattern_counts_of_counts (files : list FileComplexity) :
  counts_of (pattern_counts_of files) (all_patterns files).
Proof.
  unfold pattern_counts_of. rewrite pattern_counts_of_flat.
  apply (fold_count_pattern _ [] []). split; [constructor|]. split; [done|].
  intros p. done.
Qed.

(** X4.  [get_pattern_distribution] has one entry for each pattern name detected
    in some file, with the number of its occurrences over all the files, by
    descending count. *)
Theorem get_pattern_distribution_spec (self : ComplexityReport) :
  List.NoDup (map fst (get_pattern_distribution self)) /\
  (forall p n,
     In (p, n) (get_pattern_distribution self)
     <-> In p (all_patterns (analyzed_files self))
         /\ n = occurrences p (all_patterns (analyzed_files self))) /\
  StronglySorted (fun a b : string * Z => snd b <= snd a) (get_pattern_distribution self).
Proof.
  unfold get_pattern_distribution.
  set (lt := fun x y : string * Z => snd x <? snd y).
  destruct (pattern_counts_of_counts (analyzed_files self)) as (Hnd & Hkeys & Hget).
  pose proof (sorted_reverse_perm lt (pattern_counts_of (analyzed_files self))) as Hperm.
  split; [|split].
  - eapply Permutation_NoDup; [|exact Hnd]. apply Permutation_map. by symmetry.
  - intros p n. split.
    + intros H. eapply Permutation_in in H; [|exact Hperm].
      apply (in_dict_get p n 0 _ Hnd) in H as [Hk Hg].
      rewrite <- Hkeys, <- Hget. done.
    + intros [Hin ->]. eapply Permutation_in; [symmetry; exact Hperm|].
      apply (in_dict_get p _ 0 _ Hnd). rewrite Hkeys, Hget. done.
  - eapply strongly_sorted_impl; [|apply sorted_reverse_sorted].
    + intros a b H. unfold lt in H. lia.
    + intros x y H. unfold lt in *. lia.
    + intros x y z H1 H2. unfold lt in *. lia.
Qed.
Example get_files_by_complexity_sample :
  map file_path (get_files_by_complexity fixtures2.sample_report (70 # 1)) = ["b.py"; "c.py"].
Proof. reflexivity. Qed.

Example get_pattern_distribution_sample :
  get_pattern_distribution fixtures2.sample_report
  = [("Observer", 4); ("Factory", 1); ("Strategy", 1)].
Proof. reflexivity. Qed.

End Views.


(** ** token_manager.py: costs, usage, and the budget of a truncated text *)

Section Costs.
Import token_manager token_costs.






Lemma model_costs_nonneg (m : string) (ci co : Q) :
  MODEL_COSTS !! m = Some (ci, co) -> (0 <= ci)%Q /\ (0 <= co)%Q.
Proof.
  intros H. unfold MODEL_COSTS in H. apply elem_of_list_to_map_2 in H.
  repeat (apply elem_of_cons in H as [H|H]; [injection H as _ -> ->; split; discriminate|]).
  by apply elem_of_nil in H.
Qed.

(** X6.  [estimate_cost] is zero for a model without a price, and never negative
    for token counts that are not negative. *)
Theorem estimate_cost_nonneg (self : TokenManager) (input_tokens output_tokens : Z) :
  0 <= input_tokens -> 0 <= output_tokens ->
  (0 <= estimate_cost self input_tokens output_tokens)%Q /\
  (MODEL_COSTS !! model self = None ->
   estimate_cost self input_tokens output_tokens = 0%Q).
Proof.
  intros Hi Ho. unfold estimate_cost.
  destruct (MODEL_COSTS !! model self) as [[ci co]|] eqn:E; [|split; [apply Qle_refl | done]].
  split; [|done]. destruct (model_costs_nonneg _ _ _ E) as [Hci Hco].
  assert (Hi' : (0 <= inject_Z input_tokens / 1000)%Q).
  { apply Qle_shift_div_l; [reflexivity|]. rewrite Qmult_0_l.
    change 0%Q with (inject_Z 0). by rewrite <- Zle_Qle. }
  assert (Ho' : (0 <= inject_Z output_tokens / 1000)%Q).
  { apply Qle_shift_div_l; [reflexivity|]. rewrite Qmult_0_l.
    change 0%Q with (inject_Z 0). by rewrite <- Zle_Qle. }
  pose proof (Qmult_le_0_compat _ _ Hi' Hci). pose proof (Qmult_le_0_compat _ _ Ho' Hco).
  lra.
Qed.

(** X7.  For a limit that is not negative, the text that [truncate_to_limit]
    returns fits the limit, when encoding the kept tokens again gives them
    back. *)
Theorem truncate_to_limit_fits
    (self : TokenManager) (text : string) (max_tokens : option Z) (buffer : Z) :
  0 <= resolve_max_tokens self max_tokens - buffer ->
  encode (encoding self)
    (decode (encoding self)
       (Py.slice_to (encode (encoding self) text)
          (resolve_max_tokens self max_tokens - buffer)))
  = Py.slice_to (encode (encoding self) text) (resolve_max_tokens self max_tokens - buffer) ->
  count_tokens self (truncate_to_limit self text max_tokens buffer)
  <= resolve_max_tokens self max_tokens - buffer /\
  exists dropped,
    encode (encoding self) text
    = (encode (encoding self) (truncate_to_limit self text max_tokens buffer) ++ dropped)%list.
Proof.
  intros Hlim Hrt. unfold truncate_to_limit, count_tokens.
  set (k := resolve_max_tokens self max_tokens - buffer) in *.
  destruct (Z.leb_spec (Z.of_nat (length (encode (encoding self) text))) k) as [Hfit|Hbig].
  - split; [done|]. exists []. by rewrite app_nil_r.
  - rewrite Hrt. split; [by apply slice_to_length_nonneg|].
    rewrite slice_to_nonneg by done.
    exists (skipn (Z.to_nat k) (encode (encoding self) text)).
    by rewrite firstn_skipn.
Qed.

Lemma truncate_to_limit_fits_witness :
  count_tokens byte_manager (truncate_to_limit byte_manager "abcdef" (Some 5) 2) <= 3 /\
  truncate_to_limit byte_manager "abcdef" (Some 5) 2 = "abc".
Proof.
  split; [|reflexivity].
  apply (truncate_to_limit_fits byte_manager "abcdef" (Some 5) 2).
  - vm_compute. discriminate.
  - reflexivity.
Defined.

Lemma estimate_cost_nonneg_witness :
  (0 <= estimate_cost byte_manager 1000 2000)%Q /\
  (estimate_cost byte_manager 1000 2000 == 15 # 100)%Q.
Proof.
  split; [|reflexivity].
  apply (estimate_cost_nonneg byte_manager 1000 2000); lia.
Defined.
End Costs.


(** ** github_client.py: what is parsed, kept, fetched and requested *)

Section ParsedShape.
Import re github_client.

Lemma all_chars_app (cls : ascii -> bool) (a b : string) :
  Py.all_chars cls (a +:+ b) = Py.all_chars cls a && Py.all_chars cls b.
Proof.
  induction a as [|c a IH]; cbn [String.app Py.all_chars]; [done|].
  by rewrite IH, andb_assoc.
Qed.

(** [rstrip] cuts a suffix made of the given characters, and what is left is
    empty or ends with another character. *)
Lemma rstrip_shape (chars s : string) :
  (Py.rstrip chars s = "" \/ Py.ends_outside chars (Py.rstrip chars s) = true) /\
  exists suffix,
    s = Py.rstrip chars s +:+ suffix /\
    Py.all_chars (fun c => Py.char_in c chars) suffix = true.
Proof.
  induction s as [|c s (Hend & suffix & Hs & Hall)]; cbn [Py.rstrip].
  - split; [by left|]. by exists "".
  - destruct (Py.rstrip chars s) as [|d r] eqn:E.
    + destruct (Py.char_in c chars) eqn:Hc.
      * split; [by left|]. exists (String c s). split; [done|].
        cbn [Py.all_chars]. rewrite Hc. cbn in Hs. by rewrite Hs.
      * split.
        -- right. unfold Py.ends_outside. cbn. by rewrite Hc.
        -- exists suffix. split; [|done]. rewrite str_app_cons. by f_equal.
    + split.
      * right. destruct Hend as [?|Hend]; [done|]. exact Hend.
      * exists suffix. split; [|done]. rewrite str_app_cons. by f_equal.
Qed.

Lemma in_rmatch_segment_group (greedy : bool) (s : string) (m : list string * string) :
  In m (rmatch (Group (Plus greedy not_slash)) s) ->
  exists a, fst m = [a] /\ segment a = true.
Proof.
  intros H. apply in_rmatch_group in H as (m' & H & ->).
  apply in_rmatch_plus in H as (Hg & a & Hne & Hall & ->).
  exists a. cbn [fst snd]. rewrite Hg, consumed_app. split; [done|].
  by apply segment_spec.
Qed.

Lemma in_rmatch_patterns (pattern : regex) (s : string) (m : list string * string) :
  In pattern patterns -> In m (rmatch pattern s) ->
  has_github_path s /\
  exists owner name others,
    fst m = owner :: name :: others /\ segment owner = true /\ segment name = true.
Proof.
  intros [<-|[<-|[]]] Hm.
  - split; [by eapply in_rmatch_pattern_git|].
    apply in_rmatch_github in Hm as (owner & rest & m' & -> & Ho & Hm' & Hf & _).
    apply in_rmatch_cat in Hm' as (m1 & m2 & H1 & _ & ->).
    apply in_rmatch_segment_group in H1 as (a & Ha & Hseg).
    exists owner, a, (fst m2). rewrite Hf. cbn [fst]. rewrite Ha. done.
  - split; [by eapply in_rmatch_pattern_any|].
    apply in_rmatch_github in Hm as (owner & rest & m' & -> & Ho & Hm' & Hf & _).
    apply in_rmatch_segment_group in Hm' as (a & Ha & Hseg).
    exists owner, a, []. rewrite Hf, Ha. done.
Qed.

Lemma parse_with_ok (ps : list regex) (url owner repo : string) :
  parse_with ps url = Ok (owner, repo) ->
  exists pattern groups,
    In pattern ps /\ search pattern url = Some groups /\
    owner = group groups 1 /\ repo = Py.rstrip ".git" (group groups 2).
Proof.
  induction ps as [|pattern ps IH]; cbn [parse_with]; [done|].
  destruct (search pattern url) as [groups|] eqn:E.
  - intros [= <- <-]. exists pattern, groups. split; [by left | done].
  - intros H. destruct (IH H) as (pattern' & groups & Hin & Hrest).
    exists pattern', groups. split; [by right | done].
Qed.

(** X8.  Whatever [parse_repo_url] returns, the owner is a non-empty segment
    without ['/'], the repository name has no ['/'] and is empty or ends
    with a character other than ['.'], ['g'], ['i'], ['t'], and the URL holds
    a GitHub path. *)
Theorem parse_repo_url_shape (url owner repo : string) :
  parse_repo_url url = Ok (owner, repo) ->
  segment owner = true /\
  Py.all_chars not_slash repo = true /\
  (repo = "" \/ Py.ends_outside ".git" repo = true) /\
  has_github_path url.
Proof.
  intros H. apply parse_with_ok in H as (pattern & groups & Hin & Hs & -> & ->).
  apply search_some in Hs as (before & s & m & -> & Hm & ->).
  destruct (in_rmatch_patterns pattern s m Hin Hm)
    as (Hpath & o & name & others & Hf & Ho & Hname).
  rewrite Hf. cbn [group nth Nat.sub].
  destruct (rstrip_shape ".git" name) as (Hend & suffix & Hsuf & _).
  split; [exact Ho|]. split; [|split; [exact Hend | by apply has_github_path_suffix]].
  apply segment_spec in Hname as [_ Hall]. rewrite Hsuf, all_chars_app in Hall.
  by apply andb_prop in Hall as [? _].
Qed.

Lemma parse_repo_url_shape_witness :
  parse_repo_url "https://github.com/owner/git" = Ok ("owner", "") /\
  segment "owner" = true.
Proof.
  assert (H : parse_repo_url "https://github.com/owner/git" = Ok ("owner", ""))
    by reflexivity.
  split; [exact H|]. exact (proj1 (parse_repo_url_shape _ _ _ H)).
Defined.
End ParsedShape.

Section FilterMore.
Import github_client.

Lemma survives_spec (exclude_patterns : list string) (item : TreeItem) :
  survives exclude_patterns item = true <->
  type item = "blob" /\
  (exists ext stem, In ext code_extensions /\ path item = stem +:+ ext) /\
  (forall pattern, In pattern exclude_patterns ->
                   fnmatch.fnmatch (path item) pattern = false).
Proof.
  unfold survives. rewrite !andb_true_iff, negb_true_iff, String.eqb_eq.
  rewrite <- should_exclude_existsb, should_exclude_false.
  assert (Hext : existsb (fun ext => Py.endswith (path item) ext) code_extensions = true
                 <-> exists ext stem, In ext code_extensions /\ path item = stem +:+ ext).
  { rewrite existsb_exists. split.
    - intros (ext & Hin & H). apply endswith_spec in H as [stem H]. by exists ext, stem.
    - intros (ext & stem & Hin & H). exists ext. split; [done|].
      apply endswith_spec. by exists stem. }
  rewrite Hext. tauto.
Qed.

(** X9.  [_filter_code_files] returns every path of the listing that is a blob,
    ends with a code extension and matches no exclude pattern, and nothing
    else; the paths come in the order of the listing. *)
Theorem filter_code_files_complete
    (tree : list TreeItem) (exclude_patterns : list string) :
  (forall p,
     In p (_filter_code_files tree exclude_patterns) <->
     exists item,
       In item tree /\ path item = p /\ type item = "blob" /\
       (exists ext stem, In ext code_extensions /\ p = stem +:+ ext) /\
       (forall pattern, In pattern exclude_patterns -> fnmatch.fnmatch p pattern = false)) /\
  sublist (_filter_code_files tree exclude_patterns) (map path tree).
Proof.
  rewrite filter_code_files_survivors. unfold survivors. split.
  - intros p. rewrite in_map_iff. split.
    + intros (item & <- & Hin). apply filter_In in Hin as [Hin Hs].
      apply survives_spec in Hs as (Hb & Hext & Hex). by exists item.
    + intros (item & Hin & <- & Hb & Hext & Hex). exists item. split; [done|].
      apply filter_In. split; [done|]. by apply survives_spec.
  - induction tree as [|item tree IH]; cbn [List.filter map]; [constructor|].
    destruct (survives exclude_patterns item); cbn [map].
    + by apply sublist_skip.
    + by apply sublist_cons.
Qed.

Lemma suffixes_comparable (a b c d : string) :
  a +:+ b = c +:+ d -> (exists e, b = e +:+ d) \/ (exists e, d = e +:+ b).
Proof.
  revert c. induction a as [|x a IH]; intros c H.
  - cbn in H. left. by exists c.
  - destruct c as [|y c].
    + cbn in H. right. by exists (String x a).
    + cbn in H. injection H as _ H. by apply IH in H.
Qed.

Lemma code_file_not_doc (p doc : string) :
  (forall ext, In ext code_extensions ->
               Py.endswith ext doc = false /\ Py.endswith doc ext = false) ->
  fnmatch.plain doc = true ->
  (exists ext stem, In ext code_extensions /\ p = stem +:+ ext) ->
  fnmatch.fnmatch p ("*" +:+ doc) = false.
Proof.
  intros Hdisj Hplain (ext & stem & Hin & ->).
  destruct (fnmatch.fnmatch (stem +:+ ext) ("*" +:+ doc)) eqn:E; [|done]. exfalso.
  unfold fnmatch.fnmatch, fnmatch.fnmatchcase, fnmatch.normcase in E.
  change ("*" +:+ doc) with ("" +:+ "*" +:+ doc) in E.
  rewrite (translate_plain_star_plain "" doc eq_refl Hplain) in E.
  cbn [list_ascii_of_string map app] in E.
  apply gmatch_star in E as (run & s' & Hs & H). apply gmatch_only_lits in H as ->.
  destruct (Hdisj ext Hin) as [H1 H2].
  apply suffixes_comparable in Hs as [[e He]|[e He]].
  - assert (Py.endswith ext doc = true) by (apply endswith_spec; by exists e). congruence.
  - assert (Py.endswith doc ext = true) by (apply endswith_spec; by exists e). congruence.
Qed.

Lemma should_exclude_app (p : string) (l1 l2 : list string) :
  _should_exclude p (l1 ++ l2) = _should_exclude p l1 || _should_exclude p l2.
Proof. by rewrite !should_exclude_existsb, existsb_app. Qed.

(** X10.  The exclude patterns [*.md] and [*.txt] have no effect: a path they
    match never ends with a code extension.  With the default patterns of
    the analyzer, only [tests/*] excludes files. *)
Theorem doc_patterns_exclude_nothing
    (tree : list TreeItem) (exclude_patterns : list string) :
  _filter_code_files tree (exclude_patterns ++ ["*.md"; "*.txt"])
  = _filter_code_files tree exclude_patterns /\
  _filter_code_files tree analyzer.default_exclude_patterns
  = _filter_code_files tree ["tests/*"].
Proof.
  assert (H : forall pats,
             _filter_code_files tree (pats ++ ["*.md"; "*.txt"])
             = _filter_code_files tree pats).
  { intros pats. induction tree as [|item tree IH]; [done|].
    cbn [_filter_code_files]. rewrite IH.
    destruct (negb (String.eqb (type item) "blob")); [done|].
    destruct (negb (existsb (fun ext => Py.endswith (path item) ext) code_extensions))
      eqn:Hext; [done|].
    rewrite should_exclude_app.
    assert (Hdoc : _should_exclude (path item) ["*.md"; "*.txt"] = false).
    { apply negb_false_iff, existsb_exists in Hext as (ext & Hin & Hend).
      apply endswith_spec in Hend as [stem Hp].
      assert (Hmd : fnmatch.fnmatch (path item) "*.md" = false).
      { apply (code_file_not_doc (path item) ".md"); [|done|by exists ext, stem].
        intros e He. repeat (destruct He as [<-|He]; [by vm_compute|]). destruct He. }
      assert (Htxt : fnmatch.fnmatch (path item) "*.txt" = false).
      { apply (code_file_not_doc (path item) ".txt"); [|done|by exists ext, stem].
        intros e He. repeat (destruct He as [<-|He]; [by vm_compute|]). destruct He. }
      cbn [_should_exclude]. by rewrite Hmd, Htxt. }
    rewrite Hdoc, orb_false_r. done. }
  split; [apply H | apply (H ["tests/*"])].
Qed.
End FilterMore.

Section FetchMore.
Import github_client pipeline_views.

Lemma dict_set_put (k v : string) (d : list (string * string)) :
  dict_set k v d = builtins.dict_put k v d.
Proof.
  induction d as [|[k0 v0] d IH]; cbn [dict_set builtins.dict_put]; [done|].
  by rewrite IH.
Qed.

Lemma in_dict_put {V} (k k' : string) (v v' : V) (d : list (string * V)) :
  List.NoDup (map fst d) ->
  In (k', v') (builtins.dict_put k v d)
  <-> (k' = k /\ v' = v) \/ (k' <> k /\ In (k', v') d).
Proof.
  induction d as [|[k0 v0] d IH]; cbn [builtins.dict_put map fst In]; intros Hd.
  - split.
    + intros [[= <- <-]|[]]. by left.
    + intros [[-> ->]|[_ []]]. by left.
  - apply List.NoDup_cons_iff in Hd as [Hk0 Hd].
    destruct (String.eqb_spec k0 k) as [->|Hne]; cbn [In].
    + split.
      * intros [[= <- <-]|Hin]; [by left|]. right. split; [|by right].
        intros ->. apply Hk0. apply in_map_iff. by exists (k, v').
      * intros [[-> ->]|[Hne [[= ? ?]|Hin]]]; [by left | done | by right].
    + rewrite (IH Hd). split.
      * intros [[= <- <-]|[[-> ->]|[Hk Hin]]].
        -- right. split; [done | by left].
        -- by left.
        -- right. split; [done | by right].
      * intros [[-> ->]|[Hk [[= <- <-]|Hin]]].
        -- right. by left.
        -- by left.
        -- right. right. done.
Qed.

Lemma dict_put_fresh {V} (k : string) (v : V) (d : list (string * V)) :
  ~ In k (map fst d) -> builtins.dict_put k v d = (d ++ [(k, v)])%list.
Proof.
  induction d as [|[k0 v0] d IH]; cbn [builtins.dict_put map fst In app]; intros Hk; [done|].
  destruct (String.eqb_spec k0 k) as [->|Hne]; [tauto|]. rewrite IH; tauto.
Qed.

Lemma length_dict_put {V} (k : string) (v : V) (d : list (string * V)) :
  (length (builtins.dict_put k v d) <= S (length d))%nat.
Proof.
  induction d as [|[k0 v0] d IH]; cbn [builtins.dict_put length]; [lia|].
  destruct (String.eqb k0 k); cbn [length]; lia.
Qed.

Lemma fetch_one_holds (self : GitHubAPIClient) (owner repo : string) (st : Fetched)
    (f : string) :
  holds_served self owner repo st -> holds_served self owner repo (fetch_one self owner repo st f).
Proof.
  intros (Hnd & Hin & Hlen & Hord). unfold fetch_one.
  destruct (_get_file_content self owner repo f) as [content|e] eqn:E;
    unfold holds_served; cbn [requested file_contents].
  - rewrite dict_set_put. split; [|split; [|split]].
    + by apply nodup_keys_put.
    + intros p c. rewrite (in_dict_put _ _ _ _ _ Hnd), Hin, in_app_iff. cbn [In]. split.
      * intros [[-> ->]|[Hne [Hp Hc]]]; [split; [right; by left | done] | tauto].
      * intros [[Hp|[<-|[]]] Hc].
        -- destruct (String.eqb_spec p f) as [->|Hne]; [left; split; congruence | tauto].
        -- left. split; congruence.
    + rewrite length_app. cbn [length]. pose proof (length_dict_put f content (file_contents st)).
      lia.
    + intros Hnd'. apply NoDup_remove in Hnd' as [Hnd1 Hfresh].
      rewrite app_nil_r in Hnd1, Hfresh.
      rewrite flat_map_app. cbn [flat_map]. rewrite E, app_nil_r, <- (Hord Hnd1).
      apply dict_put_fresh. intros Hk. apply in_map_iff in Hk as ([p c] & <- & Hpc).
      apply Hin in Hpc as [Hp _]. by apply Hfresh.
  - split; [done|]. split; [|split].
    + intros p c. rewrite Hin, in_app_iff. cbn [In]. split; [tauto|].
      intros [[Hp|[<-|[]]] Hc]; [tauto | congruence].
    + rewrite length_app. cbn [length]. lia.
    + intros Hnd'. apply NoDup_remove in Hnd' as [Hnd1 _]. rewrite app_nil_r in Hnd1.
      rewrite flat_map_app. cbn [flat_map]. rewrite E, !app_nil_r. by apply Hord.
Qed.

Lemma fetch_loop_holds (self : GitHubAPIClient) (owner repo : string)
    (code_files : list string) (st : Fetched) :
  holds_served self owner repo st ->
  holds_served self owner repo (fold_left (fetch_one self owner repo) code_files st).
Proof.
  revert st. induction code_files as [|f code_files IH]; intros st Hst; [done|].
  cbn [fold_left]. apply IH. by apply fetch_one_holds.
Qed.

Lemma fetch_repository_files_ok (self : GitHubAPIClient) (url : string) (max_files : Z)
    (exclude_patterns : option (list string)) (fetched : Fetched) :
  fetch_repository_files self url max_files exclude_patterns = Ok fetched ->
  exists owner repo tree,
    parse_repo_url url = Ok (owner, repo) /\
    _get_repo_tree self owner repo = Ok tree /\
    fetched = fold_left (fetch_one self owner repo)
                (Py.slice_to (_filter_code_files tree (Py.or_list exclude_patterns []))
                   max_files)
                {| requested := []; file_contents := [] |}.
Proof.
  unfold fetch_repository_files.
  destruct (parse_repo_url url) as [[owner repo]|e] eqn:Hp; [|done]. cbn.
  destruct (_get_repo_tree self owner repo) as [tree|e] eqn:Ht; [|done]. cbn.
  intros [= <-]. by exists owner, repo, tree.
Qed.

Lemma holds_served_start (self : GitHubAPIClient) (owner repo : string) :
  holds_served self owner repo {| requested := []; file_contents := [] |}.
Proof.
  split; [constructor|]. split; [|split; [done|done]].
  intros p c. cbn. tauto.
Qed.

(** X11.  The dict that [fetch_repository_files] returns holds, once each, the
    requested paths whose content request succeeded, with that content; a
    path whose request failed is left out.  When no path is requested twice,
    the entries come in the order of the requests. *)
Theorem fetch_returns_served_files
    (self : GitHubAPIClient) (url : string) (max_files : Z)
    (exclude_patterns : option (list string)) (fetched : Fetched) :
  fetch_repository_files self url max_files exclude_patterns = Ok fetched ->
  exists owner repo,
    parse_repo_url url = Ok (owner, repo) /\
    List.NoDup (map fst (file_contents fetched)) /\
    (forall p c, In (p, c) (file_contents fetched)
                 <-> In p (requested fetched) /\ _get_file_content self owner repo p = Ok c) /\
    (List.NoDup (requested fetched) ->
     file_contents fetched
     = flat_map (fun p => match _get_file_content self owner repo p with
                          | Ok c => [(p, c)]
                          | Raise _ => []
                          end) (requested fetched)).
Proof.
  intros H. apply fetch_repository_files_ok in H as (owner & repo & tree & Hp & Ht & ->).
  exists owner, repo. split; [done|].
  destruct (fetch_loop_holds self owner repo
              (Py.slice_to (_filter_code_files tree (Py.or_list exclude_patterns [])) max_files)
              _ (holds_served_start self owner repo)) as (H1 & H2 & _ & H4).
  done.
Qed.

(** X12.  [fetch_repository_files] raises only what the parsing of the URL or the
    listing of the tree raised: the failure of a content request is never
    raised. *)
Theorem fetch_raises_before_contents
    (self : GitHubAPIClient) (url : string) (max_files : Z)
    (exclude_patterns : option (list string)) (e : exn) :
  fetch_repository_files self url max_files exclude_patterns = Raise e ->
  parse_repo_url url = Raise e \/
  exists owner repo,
    parse_repo_url url = Ok (owner, repo) /\ _get_repo_tree self owner repo = Raise e.
Proof.
  unfold fetch_repository_files.
  destruct (parse_repo_url url) as [[owner repo]|e'] eqn:Hp; cbn.
  - destruct (_get_repo_tree self owner repo) as [tree|e'] eqn:Ht; cbn; [done|].
    intros [= <-]. right. by exists owner, repo.
  - intros [= <-]. by left.
Qed.

(** X13.  With a [max_files] that is not negative, at most [max_files] contents
    are requested and at most [max_files] files are returned. *)
Theorem fetch_at_most_max_files
    (self : GitHubAPIClient) (url : string) (max_files : Z)
    (exclude_patterns : option (list string)) (fetched : Fetched) :
  0 <= max_files ->
  fetch_repository_files self url max_files exclude_patterns = Ok fetched ->
  Z.of_nat (length (requested fetched)) <= max_files /\
  (length (file_contents fetched) <= length (requested fetched))%nat.
Proof.
  intros Hmax H. apply fetch_repository_files_ok in H as (owner & repo & tree & Hp & Ht & ->).
  destruct (fetch_loop_holds self owner repo
              (Py.slice_to (_filter_code_files tree (Py.or_list exclude_patterns [])) max_files)
              _ (holds_served_start self owner repo)) as (_ & _ & H3 & _).
  split; [|exact H3].
  rewrite requested_fetch_loop. cbn [requested app].
  by apply slice_to_length_nonneg.
Qed.
Lemma fetch_returns_served_files_witness :
  exists fetched,
    fetch_repository_files (github_session.client fixtures2.master_only) fixtures.repo_url
      50 None = Ok fetched /\
    requested fetched = ["a.py"; "b.py"] /\
    file_contents fetched = [("a.py", "print(1)")] /\
    List.NoDup (map fst (file_contents fetched)).
Proof.
  eexists. split; [reflexivity|]. split; [reflexivity|]. split; [reflexivity|].
  destruct (fetch_returns_served_files (github_session.client fixtures2.master_only)
              fixtures.repo_url 50 None _ eq_refl) as (owner & repo & _ & Hnd & _).
  exact Hnd.
Defined.

Lemma fetch_raises_before_contents_witness :
  fetch_repository_files (fixtures.client_of ["a.py"]) "https://example.com/invalid" 50 None
  = Raise (Py.ValueError "Invalid GitHub URL: https://example.com/invalid") /\
  (parse_repo_url "https://example.com/invalid"
   = Raise (Py.ValueError "Invalid GitHub URL: https://example.com/invalid") \/
   exists owner repo,
     parse_repo_url "https://example.com/invalid" = Ok (owner, repo) /\
     _get_repo_tree (fixtures.client_of ["a.py"]) owner repo
     = Raise (Py.ValueError "Invalid GitHub URL: https://example.com/invalid")).
Proof.
  split; [reflexivity|].
  exact (fetch_raises_before_contents (fixtures.client_of ["a.py"])
           "https://example.com/invalid" 50 None _ eq_refl).
Defined.

Lemma fetch_at_most_max_files_witness :
  exists fetched,
    fetch_repository_files (fixtures.client_of ["a.py"; "b.py"; "c.py"]) fixtures.repo_url
      2 None = Ok fetched /\
    Z.of_nat (length (requested fetched)) <= 2 /\
    (length (file_contents fetched) <= length (requested fetched))%nat.
Proof.
  eexists. split; [reflexivity|].
  apply (fetch_at_most_max_files (fixtures.client_of ["a.py"; "b.py"; "c.py"])
           fixtures.repo_url 2 None); [lia | reflexivity].
Defined.

End FetchMore.

Section SessionRequests.
Import github_client github_session pipeline_views.

Lemma read_tree_ok (response : Response) (t : list TreeItem) :
  read_tree response = Ok t <->
  is_http_error (status_code response) = false /\
  exists data, json response = Ok data /\ t = default [] (tree data).
Proof.
  unfold read_tree, raise_for_status.
  destruct (is_http_error (status_code response)) eqn:Es; cbn;
    [split; [done | by intros [? _]]|].
  destruct (json response) as [data|e]; cbn.
  - split.
    + intros [= <-]. split; [done|]. by exists data.
    + intros (_ & data' & [= <-] & ->). done.
  - split; [done|]. by intros (_ & data & ? & _).
Qed.

(** X14.  [_get_repo_tree] asks for the branch [main] first and for [master] only
    when [main] answers 404; it makes no other request.  A tree that it
    returns is the ["tree"] entry (the empty list without that entry) of the
    answer to its last request, an answer whose status is no HTTP error.
    When both branches answer 404 it raises [HTTPError]. *)
Theorem get_repo_tree_outcome (self : Session) (owner repo : string) :
  (fst (_get_repo_tree self owner repo) = [tree_url owner repo "main"] \/
   fst (_get_repo_tree self owner repo)
   = [tree_url owner repo "main"; tree_url owner repo "master"]) /\
  (fst (_get_repo_tree self owner repo)
   = [tree_url owner repo "main"; tree_url owner repo "master"]
   <-> exists response,
         get self (tree_url owner repo "main") = Ok response /\
         status_code response = 404) /\
  (forall t,
     snd (_get_repo_tree self owner repo) = Ok t ->
     exists url response data,
       last (fst (_get_repo_tree self owner repo)) = Some url /\
       get self url = Ok response /\
       is_http_error (status_code response) = false /\
       json response = Ok data /\ t = default [] (tree data)) /\
  (forall response response',
     get self (tree_url owner repo "main") = Ok response ->
     status_code response = 404 ->
     get self (tree_url owner repo "master") = Ok response' ->
     status_code response' = 404 ->
     exists e, snd (_get_repo_tree self owner repo) = Raise e /\ exn_class e = "HTTPError").
Proof.
  unfold _get_repo_tree.
  destruct (get self (tree_url owner repo "main")) as [r1|e1] eqn:E1.
  - destruct (Z.eqb_spec (status_code r1) 404) as [H404|Hother].
    + destruct (get self (tree_url owner repo "master")) as [r2|e2] eqn:E2; cbn [fst snd].
      * split; [by right|]. split; [split; [by exists r1 | done]|]. split.
        -- intros t Ht. apply read_tree_ok in Ht as (Hs & data & Hj & ->).
           by exists (tree_url owner repo "master"), r2, data.
        -- intros response response' [= <-] _ [= <-] H. unfold read_tree, raise_for_status.
           rewrite H. eexists. split; reflexivity.
      * split; [by right|]. split; [split; [by exists r1 | done]|]. split; [done|].
        intros response response' _ _ [=].
    + cbn [fst snd]. split; [by left|]. split; [|split].
      * split; [done|]. intros (response & [= <-] & H). done.
      * intros t Ht. apply read_tree_ok in Ht as (Hs & data & Hj & ->).
        by exists (tree_url owner repo "main"), r1, data.
      * intros response response' [= <-] H. done.
  - cbn [fst snd]. split; [by left|]. split; [|split; [done|]].
    + split; [done|]. by intros (response & [=] & _).
    + intros response response' [=].
Qed.

Example get_repo_tree_master_only :
  _get_repo_tree fixtures2.master_only "owner" "repo"
  = ([tree_url "owner" "repo" "main"; tree_url "owner" "repo" "master"],
     Ok (fixtures.listing ["a.py"; "b.py"])).
Proof. reflexivity. Qed.

Lemma get_file_content_ok (self : Session) (owner repo file_path c : string) :
  _get_file_content self owner repo file_path = Ok c <->
  exists response data encoded,
    get self (contents_url owner repo file_path) = Ok response /\
    is_http_error (status_code response) = false /\
    json response = Ok data /\ content data = Some encoded /\
    b64decode_utf8 self encoded = Ok c.
Proof.
  unfold _get_file_content, raise_for_status.
  destruct (get self (contents_url owner repo file_path)) as [response|e]; cbn.
  - destruct (is_http_error (status_code response)) eqn:Es; cbn.
    + split; [done|]. intros (r & d & enc & [= <-] & ? & _). congruence.
    + destruct (json response) as [data|e] eqn:Ej; cbn.
      * destruct (content data) as [encoded|] eqn:Ec.
        -- split.
           ++ intros H. by exists response, data, encoded.
           ++ intros (r & d & enc & [= <-] & _ & Hj & Hc & Hd).
              rewrite Ej in Hj. injection Hj as <-. rewrite Ec in Hc. by injection Hc as <-.
        -- split; [done|]. intros (r & d & enc & [= <-] & _ & Hj & Hc & _).
           rewrite Ej in Hj. injection Hj as <-. congruence.
      * split; [done|]. intros (r & d & enc & [= <-] & _ & Hj & _). congruence.
  - split; [done|]. by intros (r & d & enc & [=] & _).
Qed.

(** X15.  Through a session, a file is in the result of [fetch_repository_files]
    only if the request for its content was answered with a status that is
    no HTTP error and a JSON object whose ["content"] entry decodes to the
    text returned: files answered with an error status, without a content,
    or with a content that does not decode, are skipped. *)
Theorem session_fetch_skips_bad_answers
    (self : Session) (url : string) (max_files : Z)
    (exclude_patterns : option (list string)) (fetched : Fetched) (p c : string) :
  fetch_repository_files (client self) url max_files exclude_patterns = Ok fetched ->
  In (p, c) (file_contents fetched) ->
  exists owner repo response data encoded,
    parse_repo_url url = Ok (owner, repo) /\
    get self (contents_url owner repo p) = Ok response /\
    is_http_error (status_code response) = false /\
    json response = Ok data /\ content data = Some encoded /\
    b64decode_utf8 self encoded = Ok c.
Proof.
  intros H Hin. apply fetch_repository_files_ok in H as (owner & repo & tree & Hp & Ht & ->).
  destruct (fetch_loop_holds (client self) owner repo
              (Py.slice_to (_filter_code_files tree (Py.or_list exclude_patterns [])) max_files)
              _ (holds_served_start (client self) owner repo)) as (_ & H2 & _ & _).
  apply H2 in Hin as [_ Hc]. cbn [client github_client._get_file_content] in Hc.
  apply get_file_content_ok in Hc as (response & data & encoded & Hc).
  by exists owner, repo, response, data, encoded.
Qed.

Lemma session_fetch_skips_bad_answers_witness :
  fetch_repository_files (client fixtures2.master_only) fixtures.repo_url 50 None
  = Ok {| requested := ["a.py"; "b.py"]; file_contents := [("a.py", "print(1)")] |} /\
  exists response,
    get fixtures2.master_only (contents_url "owner" "repo" "a.py") = Ok response /\
    is_http_error (status_code response) = false.
Proof.
  assert (H : fetch_repository_files (client fixtures2.master_only) fixtures.repo_url 50 None
              = Ok {| requested := ["a.py"; "b.py"];
                      file_contents := [("a.py", "print(1)")] |}) by reflexivity.
  split; [exact H|].
  destruct (session_fetch_skips_bad_answers fixtures2.master_only fixtures.repo_url 50 None
              _ "a.py" "print(1)" H (or_introl eq_refl))
    as (owner & repo & response & data & encoded & Hp & Hg & Hs & _).
  injection Hp as <- <-. by exists response.
Defined.
End SessionRequests.


(** ** models.py and analyzer.py: construction *)

Section ModelsMore.
Import models.

Lemma is_ok_validate_top_file (v : string) (files : list FileComplexity)
    (vs : gmap string pyval) :
  vs !! "analyzed_files" = Some (VFiles files) ->
  is_ok (validate_top_file v vs) = true <-> In v (map file_path files).
Proof.
  intros Hvs. unfold validate_top_file. rewrite Hvs.
  destruct (bool_decide (v ∈ map file_path files)) eqn:E.
  - apply bool_decide_eq_true in E. split; [|done]. intros _. by apply list_elem_of_In.
  - apply bool_decide_eq_false in E. split; [done|]. intros H. destruct E.
    by apply list_elem_of_In.
Qed.

Lemma ComplexityReport_errors (d : ComplexityReport) :
  errors (ComplexityReport_fields d) = [] <->
  In (top_file d) (map file_path (analyzed_files d)) /\
  (0 <= score d)%Q /\ (score d <= 100)%Q.
Proof.
  unfold ComplexityReport_fields. repeat rewrite errors_vfield.
  repeat rewrite app_if_nil. repeat rewrite is_ok_fmap.
  cbn [values vfield vstart is_ok errors].
  rewrite is_ok_validate_top_file by apply lookup_insert_eq.
  rewrite is_ok_ge_le. tauto.
Qed.

Lemma ComplexityReport_init_iff (d r : ComplexityReport) :
  ComplexityReport_init d = Ok r <->
  r = d /\ In (top_file d) (map file_path (analyzed_files d)) /\
  (0 <= score d)%Q /\ (score d <= 100)%Q.
Proof.
  unfold ComplexityReport_init, vfinish. rewrite <- ComplexityReport_errors.
  destruct (errors (ComplexityReport_fields d)); split.
  - intros [= <-]. done.
  - intros [-> _]. done.
  - discriminate.
  - intros [_ ?]. discriminate.
Qed.

(** X2.  A [ComplexityReport] is constructed exactly when its top file is the
    path of one of its analyzed files and its score lies between 0 and 100;
    the constructed report is the candidate, and it has at least one
    analyzed file. *)
Theorem ComplexityReport_init_spec (d r : ComplexityReport) :
  (ComplexityReport_init d = Ok r <->
   r = d /\ In (top_file d) (map file_path (analyzed_files d)) /\
   (0 <= score d)%Q /\ (score d <= 100)%Q) /\
  (ComplexityReport_init d = Ok r -> analyzed_files r <> []).
Proof.
  split; [apply ComplexityReport_init_iff|].
  intros Hr. apply ComplexityReport_init_iff in Hr as (-> & Hin & _).
  destruct (analyzed_files d); [destruct Hin | done].
Qed.

(** X1.  A [FileComplexity] is constructed exactly when every field is within its
    own bounds, and the constructed value is the candidate: the relation
    between the total score and the component scores plays no part. *)
Theorem FileComplexity_init_spec (d d' : FileComplexity) :
  FileComplexity_init d = Ok d' <-> d' = d /\ in_range d.
Proof.
  unfold FileComplexity_init, vfinish. rewrite <- FileComplexity_errors.
  destruct (errors (FileComplexity_fields d)) as [|name names]; split.
  - intros [= <-]. done.
  - intros [-> _]. done.
  - discriminate.
  - intros [_ Hnil]. discriminate Hnil.
Qed.
End ModelsMore.

Section AnalyzerMore.
Import models analyzer pipeline_views.

Lemma or_str_twice (model : option string) (fallback : string) :
  Py.or_str (Some (Py.or_str model fallback)) fallback = Py.or_str model fallback.
Proof.
  destruct model as [[|c s]|]; cbn [Py.or_str]; by destruct fallback.
Qed.

(** X16.  [RepositoryAnalyzer(...)] is built exactly for the provider names
    ["openai"] and ["anthropic"]; any other name raises [ValueError].  The
    provider's model is the [model] argument when it is a non-empty string;
    otherwise the value of [OPENAI_MODEL], or ["gpt-5"] when it is unset, for
    OpenAI, and ["claude-3-opus-20240229"] for Anthropic. *)
Theorem init_selects_provider
    (w : World) (client : github_client.GitHubAPIClient) (provider : string)
    (model : option string) (max_files : Z) (exclude_patterns : option (list string)) :
  (is_ok (__init__ w client provider model max_files exclude_patterns) = true
   <-> provider = "openai" \/ provider = "anthropic") /\
  (provider <> "openai" -> provider <> "anthropic" ->
   __init__ w client provider model max_files exclude_patterns
   = Raise (Py.ValueError ("Unknown provider: " +:+ provider))) /\
  (forall ra,
     __init__ w client provider model max_files exclude_patterns = Ok ra ->
     llm_provider ra
     = if String.eqb provider "openai"
       then OpenAIProvider
              (match model with
               | Some (String c s) => String c s
               | _ => match getenv w "OPENAI_MODEL" with
                      | Some v => v
                      | None => "gpt-5"
                      end
               end)
       else AnthropicProvider
              (match model with
               | Some (String c s) => String c s
               | _ => "claude-3-opus-20240229"
               end)).
Proof.
  unfold __init__, _create_llm_provider, OpenAIProvider_init.
  rewrite or_str_twice. unfold getenv_or.
  destruct (String.eqb_spec provider "openai") as [->|Hno].
  - cbn. split; [split; [by left | done]|]. split; [done|].
    intros ra [= <-]. cbn [llm_provider].
    by destruct model as [[|c s]|], (getenv w "OPENAI_MODEL").
  - destruct (String.eqb_spec provider "anthropic") as [->|Hna].
    + cbn. split; [split; [by right | done]|]. split; [done|].
      intros ra [= <-]. cbn [llm_provider]. by destruct model as [[|c s]|].
    + cbn. split; [split; [done | by intros [?|?]]|]. split; [done|]. done.
Qed.

Lemma substring_prefix (n : nat) (s : string) :
  exists rest,
    s = String.substring 0 n s +:+ rest /\
    String.length (String.substring 0 n s) = Nat.min n (String.length s).
Proof.
  revert n. induction s as [|c s IH]; intros n.
  - exists "". by destruct n.
  - destruct n as [|n]; cbn [String.substring].
    + exists (String c s). done.
    + destruct (IH n) as (rest & Hs & Hl). exists rest. cbn [String.app String.length].
      split; [by rewrite <- Hs | by rewrite Hl].
Qed.

(** X17.  A [FileComplexity] that [analyze_file] returns satisfies the field
    constraints, and is the answer of the backend to a prefix of the file of
    at most 15000 (OpenAI) or 20000 (Anthropic) characters: the whole file
    when it is not longer. *)
Theorem analyze_file_checked
    (w : World) (p : LLMProvider) (file_content file_path : string) (c : FileComplexity) :
  analyze_file w p file_content file_path = Ok c ->
  in_range c /\
  exists seen rest,
    file_content = seen +:+ rest /\
    Z.of_nat (String.length seen) <= cut_of p /\
    (Z.of_nat (String.length file_content) <= cut_of p -> rest = "") /\
    chain_invoke w p seen file_path = Ok c.
Proof.
  intros H. split; [by eapply analyze_file_in_range|].
  unfold analyze_file in H.
  set (n := match p with
            | OpenAIProvider _ => Z.to_nat 15000
            | AnthropicProvider _ => Z.to_nat 20000
            end) in *.
  assert (Hn : Z.of_nat n = cut_of p) by (destruct p; unfold n, cut_of; lia).
  destruct (substring_prefix n file_content) as (rest & Hs & Hl).
  unfold Py.str_take in H.
  destruct (chain_invoke w p (String.substring 0 n file_content) file_path)
    as [answer|e] eqn:E; [|done].
  cbn in H. apply FileComplexity_init_ok in H as [-> _].
  exists (String.substring 0 n file_content), rest.
  split; [exact Hs|]. split; [lia|]. split; [|exact E].
  intros Hshort. assert (Hlen : String.length rest = 0%nat).
  { assert (String.length file_content
            = (String.length (String.substring 0 n file_content) + String.length rest)%nat)
      by (rewrite Hs at 1; apply str_length_app).
    lia. }
  by destruct rest.
Qed.

Lemma analyze_file_checked_witness :
  analyze_file fixtures2.mixed_world (OpenAIProvider "gpt-5") "x = 1" "a.py"
  = Ok (fixtures.scored "a.py" (30 # 1)) /\
  in_range (fixtures.scored "a.py" (30 # 1)).
Proof.
  assert (H : analyze_file fixtures2.mixed_world (OpenAIProvider "gpt-5") "x = 1" "a.py"
              = Ok (fixtures.scored "a.py" (30 # 1))) by reflexivity.
  split; [exact H|]. exact (proj1 (analyze_file_checked _ _ _ _ _ H)).
Defined.
End AnalyzerMore.


(** ** analyzer.py: what [analyze] attempts, returns and raises *)

Section AnalyzeMore.
Import models analyzer pipeline_views.

Lemma analyzed_fold (w : World) (self : RepositoryAnalyzer)
    (files : list (string * string)) (st : Analyzing) :
  analyzed (fold_left (analyze_one w self) files st)
  = (analyzed st ++ successes w self files)%list.
Proof.
  revert st. induction files as [|[path content] files IH]; intros st.
  - cbn. by rewrite app_nil_r.
  - cbn [fold_left]. rewrite IH. unfold successes. cbn [flat_map fst snd].
    unfold analyze_one.
    destruct (analyze_file w (llm_provider self) content path); cbn [analyzed].
    + by rewrite <- app_assoc.
    + done.
Qed.

Lemma analyzed_loop (w : World) (self : RepositoryAnalyzer) (files : list (string * string)) :
  analyzed (analyze_loop w self files) = successes w self files.
Proof. unfold analyze_loop. by rewrite analyzed_fold. Qed.

Lemma attempted_loop (w : World) (self : RepositoryAnalyzer) (files : list (string * string)) :
  attempted (analyze_loop w self files) = map fst files.
Proof.
  unfold analyze_loop.
  by destruct (analyze_fold w self files {| attempted := []; analyzed := [] |}) as (-> & _).
Qed.

Lemma successes_nil (w : World) (self : RepositoryAnalyzer) (files : list (string * string)) :
  successes w self files = [] <->
  forall file, In file files ->
               is_ok (analyze_file w (llm_provider self) (snd file) (fst file)) = false.
Proof.
  unfold successes. induction files as [|file files IH]; cbn [flat_map].
  - split; [intros _ ? [] | done].
  - destruct (analyze_file w (llm_provider self) (snd file) (fst file)) eqn:E; cbn [app].
    + split; [done|]. intros H. specialize (H file (or_introl eq_refl)).
      rewrite E in H. done.
    + rewrite IH. split.
      * intros H f [<-|Hf]; [by rewrite E | by apply H].
      * intros H f Hf. apply H. by right.
Qed.

Lemma length_successes (w : World) (self : RepositoryAnalyzer) (files : list (string * string)) :
  (length (successes w self files) <= length files)%nat.
Proof.
  unfold successes. induction files as [|file files IH]; cbn [flat_map length]; [lia|].
  rewrite length_app. destruct (analyze_file _ _ _ _); cbn [length]; lia.
Qed.

Lemma aggregate_nil (w : World) (self : RepositoryAnalyzer) (url : string)
    (files : list (string * string)) :
  aggregate w self url files []
  = Raise (Py.ValueError "max() arg is an empty sequence").
Proof. reflexivity. Qed.

Lemma aggregate_inv (w : World) (self : RepositoryAnalyzer) (url : string)
    (files : list (string * string)) (l : list FileComplexity) (report : ComplexityReport) :
  aggregate w self url files l = Ok report ->
  l <> [] /\
  repository_url report = url /\ analyzed_files report = l /\
  In (top_file report) (map file_path l) /\
  (0 <= score report)%Q /\ (score report <= 100)%Q /\
  metadata report = {| total_files := len files;
                       analyzed_count := len l;
                       excluded_patterns := exclude_patterns self |} /\
  timestamp report = utcnow w +:+ "Z".
Proof.
  unfold aggregate. destruct (Py.max_by total_score l) as [top|e] eqn:Et; [|done].
  cbn [mbind result_bind Py.bind].
  destruct (average l) as [avg|e] eqn:Ea; [|done]. cbn [Py.bind].
  intros H. apply ComplexityReport_init_iff in H as (-> & Htop & H0 & H100).
  cbn [repository_url analyzed_files top_file score metadata timestamp] in *.
  split; [by destruct l|]. done.
Qed.

(** X18.  Every fetched file is handed to the provider once, in the order of the
    fetched dict, whether or not the analysis of other files fails.
    [analyze] returns a report exactly when the analysis of one file at
    least succeeds, and the analyzed files of the report are the successful
    analyses, in that order. *)
Theorem analyze_isolates_file_failures
    (w : World) (self : RepositoryAnalyzer) (url : string)
    (fetched : github_client.Fetched) :
  github_client.fetch_repository_files (github_client self) url (max_files self)
    (Some (exclude_patterns self)) = Ok fetched ->
  fst (analyze w self url) = map fst (github_client.file_contents fetched) /\
  (is_ok (snd (analyze w self url)) = true
   <-> exists file,
         In file (github_client.file_contents fetched) /\
         is_ok (analyze_file w (llm_provider self) (snd file) (fst file)) = true) /\
  (forall report,
     snd (analyze w self url) = Ok report ->
     analyzed_files report = successes w self (github_client.file_contents fetched)).
Proof.
  intros Hfetch. unfold analyze. rewrite Hfetch. cbn [fst snd].
  rewrite attempted_loop, analyzed_loop. split; [done|]. split.
  - destruct (successes w self (github_client.file_contents fetched)) as [|c l] eqn:E.
    + rewrite aggregate_nil. split; [done|]. intros (file & Hin & Hok).
      rewrite (proj1 (successes_nil _ _ _) E file Hin) in Hok. done.
    + split.
      * intros _.
        assert (Hex : ~ forall file, In file (github_client.file_contents fetched) ->
                        is_ok (analyze_file w (llm_provider self) (snd file) (fst file))
                        = false).
        { intros Hall. apply successes_nil in Hall. congruence. }
        clear E. induction (github_client.file_contents fetched) as [|f fs IH].
        -- destruct Hex. intros ? [].
        -- destruct (is_ok (analyze_file w (llm_provider self) (snd f) (fst f))) eqn:Ef.
           ++ exists f. split; [by left | done].
           ++ destruct IH as (file & Hin & Hok).
              ** intros Hall. apply Hex. intros g [<-|Hg]; [done | by apply Hall].
              ** exists file. split; [by right | done].
      * intros _.
        destruct (analyze_fold w self (github_client.file_contents fetched)
                    {| attempted := []; analyzed := [] |}) as (_ & Hrange & _).
        fold (analyze_loop w self (github_client.file_contents fetched)) in Hrange.
        rewrite analyzed_loop, E in Hrange.
        destruct (aggregate_ok w self url (github_client.file_contents fetched) (c :: l))
          as (report & -> & _); [done | by apply Hrange; constructor | done].
  - intros report Hrep. by apply aggregate_inv in Hrep as (_ & _ & -> & _).
Qed.

(** X19.  A report that [analyze] returns echoes the URL, has at least one analyzed
    file, each within the field constraints, names as top file the path of
    one of them, has a score between 0 and 100, counts in its metadata the
    fetched files and the analyzed files (at least one, and no more than were
    fetched), records the exclude patterns of the analyzer, and is stamped
    with the clock followed by ["Z"]. *)
Theorem analyze_report_invariants
    (w : World) (self : RepositoryAnalyzer) (url : string) (report : ComplexityReport) :
  snd (analyze w self url) = Ok report ->
  repository_url report = url /\
  analyzed_files report <> [] /\
  Forall in_range (analyzed_files report) /\
  In (top_file report) (map file_path (analyzed_files report)) /\
  (0 <= score report)%Q /\ (score report <= 100)%Q /\
  analyzed_count (metadata report) = len (analyzed_files report) /\
  1 <= analyzed_count (metadata report) <= total_files (metadata report) /\
  excluded_patterns (metadata report) = exclude_patterns self /\
  timestamp report = utcnow w +:+ "Z".
Proof.
  unfold analyze.
  destruct (github_client.fetch_repository_files _ _ _ _) as [fetched|e]; [|done].
  cbn [snd]. intros Hrep.
  destruct (analyze_fold w self (github_client.file_contents fetched)
              {| attempted := []; analyzed := [] |}) as (_ & Hrange & _).
  fold (analyze_loop w self (github_client.file_contents fetched)) in Hrange.
  specialize (Hrange (List.Forall_nil _)).
  pose proof (length_successes w self (github_client.file_contents fetched)) as Hlen.
  rewrite <- analyzed_loop in Hlen.
  apply aggregate_inv in Hrep as (Hne & Hurl & Hfiles & Htop & H0 & H100 & Hmeta & Hts).
  rewrite Hfiles, Hmeta. cbn [analyzed_count total_files excluded_patterns].
  repeat split; try done.
  - unfold len. destruct (analyzed (analyze_loop w self _)); [done | cbn; lia].
  - unfold len. lia.
Qed.

(** X20.  [analyze] raises only the error of [fetch_repository_files], before any
    file is handed to the provider, or, when the analysis of every fetched
    file failed, the [ValueError] of [max] on an empty sequence: the error
    of a single file is never raised. *)
Theorem analyze_raises_only_fatal_errors
    (w : World) (self : RepositoryAnalyzer) (url : string) (e : exn) :
  snd (analyze w self url) = Raise e ->
  (github_client.fetch_repository_files (github_client self) url (max_files self)
     (Some (exclude_patterns self)) = Raise e /\
   fst (analyze w self url) = []) \/
  (exists fetched,
     github_client.fetch_repository_files (github_client self) url (max_files self)
       (Some (exclude_patterns self)) = Ok fetched /\
     (forall file, In file (github_client.file_contents fetched) ->
        is_ok (analyze_file w (llm_provider self) (snd file) (fst file)) = false) /\
     e = Py.ValueError "max() arg is an empty sequence").
Proof.
  unfold analyze.
  destruct (github_client.fetch_repository_files _ _ _ _) as [fetched|e'] eqn:Hfetch.
  - cbn [snd]. intros Hrep. right. exists fetched. split; [done|].
    rewrite analyzed_loop in Hrep.
    destruct (successes w self (github_client.file_contents fetched)) as [|c l] eqn:E.
    + rewrite aggregate_nil in Hrep. injection Hrep as <-.
      split; [by apply successes_nil | done].
    + destruct (analyze_fold w self (github_client.file_contents fetched)
                  {| attempted := []; analyzed := [] |}) as (_ & Hrange & _).
      fold (analyze_loop w self (github_client.file_contents fetched)) in Hrange.
      rewrite analyzed_loop, E in Hrange.
      destruct (aggregate_ok w self url (github_client.file_contents fetched) (c :: l))
        as (report & Hok & _); [done | by apply Hrange; constructor |].
      congruence.
  - cbn [fst snd]. intros [= <-]. by left.
Qed.

Lemma analyze_isolates_file_failures_witness :
  fst (analyze fixtures2.mixed_world (fixtures.analyzer_of ["a.py"; "b.py"; "c.py"] 50)
         fixtures.repo_url) = ["a.py"; "b.py"; "c.py"] /\
  exists report,
    snd (analyze fixtures2.mixed_world (fixtures.analyzer_of ["a.py"; "b.py"; "c.py"] 50)
           fixtures.repo_url) = Ok report /\
    map file_path (analyzed_files report) = ["a.py"; "c.py"] /\
    score report = (5000 # 100)%Q /\ top_file report = "c.py".
Proof.
  split.
  - exact (proj1 (analyze_isolates_file_failures fixtures2.mixed_world
                    (fixtures.analyzer_of ["a.py"; "b.py"; "c.py"] 50) fixtures.repo_url
                    {| github_client.requested := ["a.py"; "b.py"; "c.py"];
                       github_client.file_contents :=
                         [("a.py", "# a.py"); ("b.py", "# b.py"); ("c.py", "# c.py")] |}
                    eq_refl)).
  - eexists. split; [vm_compute; reflexivity|]. repeat split.
Defined.

Lemma analyze_report_invariants_witness :
  exists report,
    snd (analyze fixtures2.mixed_world (fixtures.analyzer_of ["a.py"; "b.py"; "c.py"] 50)
           fixtures.repo_url) = Ok report /\
    analyzed_count (metadata report) = 2 /\ total_files (metadata report) = 3 /\
    1 <= analyzed_count (metadata report) <= total_files (metadata report).
Proof.
  eexists. split; [vm_compute; reflexivity|]. split; [reflexivity|]. split; [reflexivity|].
  match goal with
  | |- 1 <= analyzed_count (metadata ?r) <= _ =>
      pose proof (analyze_report_invariants fixtures2.mixed_world
                    (fixtures.analyzer_of ["a.py"; "b.py"; "c.py"] 50) fixtures.repo_url r)
        as H
  end.
  destruct H as (_ & _ & _ & _ & _ & _ & _ & Hcount & _); [vm_compute; reflexivity|].
  exact Hcount.
Defined.

Lemma analyze_raises_only_fatal_errors_witness :
  snd (analyze fixtures.failing_world (fixtures.analyzer_of ["a.py"; "b.py"] 50)
         fixtures.repo_url)
  = Raise (Py.ValueError "max() arg is an empty sequence") /\
  exists fetched,
    github_client.fetch_repository_files
      (github_client (fixtures.analyzer_of ["a.py"; "b.py"] 50)) fixtures.repo_url 50
      (Some default_exclude_patterns) = Ok fetched /\
    forall file, In file (github_client.file_contents fetched) ->
      is_ok (analyze_file fixtures.failing_world (OpenAIProvider "gpt-5") (snd file) (fst file))
      = false.
Proof.
  split; [reflexivity|].
  destruct (analyze_raises_only_fatal_errors fixtures.failing_world
              (fixtures.analyzer_of ["a.py"; "b.py"] 50) fixtures.repo_url
              (Py.ValueError "max() arg is an empty sequence") eq_refl)
    as [[Hfetch _]|(fetched & Hfetch & Hall & _)].
  - vm_compute in Hfetch. discriminate.
  - exists fetched. split; [exact Hfetch | exact Hall].
Defined.

End AnalyzeMore.
